(** * try-catch-sucks: the Result-based validation pipeline

    A shallow embedding of the validators and composers of
    [src/neverthrow.ts], [src/errors.ts] and [src/errors-as-values.ts],
    with the properties the specification states about them. *)

From Stdlib Require Import List NArith ZArith Bool Ascii String Lia.
From Stdlib Require Import Floats.SpecFloat.
Import ListNotations.

(** ** JavaScript strings

    A JavaScript string is a sequence of UTF-16 code units; [length],
    [includes] and a regular expression without the [u] flag all work on
    code units. *)

Module JsString.

Definition code_unit := N.
Definition jsstring := list code_unit.

(** A string literal of the source whose characters are all ASCII. *)
Definition lit (s : string) : jsstring :=
  List.map N_of_ascii (list_ascii_of_string s).

Definition code_unit_eqb (a b : code_unit) : bool := N.eqb a b.

(** [s.startsWith(p)] *)
Fixpoint startsWith (s p : jsstring) : bool :=
  match p, s with
  | [], _ => true
  | _ :: _, [] => false
  | a :: p', b :: s' => code_unit_eqb a b && startsWith s' p'
  end.

(** [s.includes(sub)]: [sub] occurs in [s] at some position. *)
Fixpoint includes (s sub : jsstring) : bool :=
  startsWith s sub ||
  match s with
  | [] => false
  | _ :: s' => includes s' sub
  end.

(** The code units [String.prototype.trim] strips: WhiteSpace and
    LineTerminator of ECMA-262. *)
Definition isWhiteSpace (c : code_unit) : bool :=
  existsb (N.eqb c)
    [0x0009; 0x000A; 0x000B; 0x000C; 0x000D; 0x0020; 0x00A0; 0x1680;
     0x2028; 0x2029; 0x202F; 0x205F; 0x3000; 0xFEFF]%N
  || ((0x2000 <=? c) && (c <=? 0x200A))%N.

Fixpoint trimStart (s : jsstring) : jsstring :=
  match s with
  | [] => []
  | c :: s' => if isWhiteSpace c then trimStart s' else s
  end.

Definition trimEnd (s : jsstring) : jsstring := rev (trimStart (rev s)).

Definition trim (s : jsstring) : jsstring := trimEnd (trimStart s).

(** The character classes of the two regular expressions of the source. *)
Definition in_A_Z (c : code_unit) : bool := ((0x41 <=? c) && (c <=? 0x5A))%N.
Definition in_0_9 (c : code_unit) : bool := ((0x30 <=? c) && (c <=? 0x39))%N.

(** [/[A-Z]/.test(s)] and [/[0-9]/.test(s)]: some code unit of [s] is in
    the class. *)
Definition test_A_Z (s : jsstring) : bool := existsb in_A_Z s.
Definition test_0_9 (s : jsstring) : bool := existsb in_0_9 s.

(** What [toLowerCase] does to one ASCII code unit. *)
Definition ascii_lower (c : code_unit) : code_unit :=
  if in_A_Z c then (c + 32)%N else c.

Definition is_ascii (c : code_unit) : Prop := (c < 128)%N.

(** [toLowerCase] restricted to ASCII text; on other text the engine
    applies the Unicode case mapping, which is left abstract below. *)
Definition asciiToLowerCase (s : jsstring) : jsstring := List.map ascii_lower s.

End JsString.
Import JsString.

(** ** JavaScript numbers

    A [number] is an IEEE 754 binary64 value: [spec_float] with precision
    53 and maximal exponent 1024. [<] and [>] are the IEEE comparisons, false
    whenever an operand is NaN. The properties of the age validator are
    proved for every [spec_float], the binary64 values among them. *)

Module JsNumber.

Definition number := spec_float.

Definition double_prec : Z := 53.
Definition double_emax : Z := 1024.

(** The binary64 value of an integer literal. *)
Definition of_Z (z : Z) : number :=
  binary_normalize double_prec double_emax z 0 false.

Definition NaN : number := S754_nan.

(** [a < b] and [a > b] of JavaScript; [num_le] is [a <= b]. *)
Definition num_lt (a b : number) : bool := SFltb a b.
Definition num_gt (a b : number) : bool := SFltb b a.
Definition num_le (a b : number) : bool := SFleb a b.

(** The literals [13] and [120]. *)
Definition n13 : number := Eval vm_compute in of_Z 13.
Definition n120 : number := Eval vm_compute in of_Z 120.

End JsNumber.
Import JsNumber.

(** ** The Result container *)

Module Neverthrow.

(** Modelled from the spec: the [Result] type of the [neverthrow] package,
    with its factories [ok] and [err]. The package is a dependency of the
    repository and its source is not part of it; section 3 of the
    specification gives the two variants. *)
Inductive Result (T E : Type) : Type :=
| ok (value : T)
| err (error : E).

Arguments ok {T E} value.
Arguments err {T E} error.

(** Modelled from the spec: the methods of a [neverthrow] Result, as
    section 4.1 of the specification gives their contracts. *)
Section Methods.
Context {T U E F R : Type}.

Definition isOk (r : Result T E) : bool :=
  match r with ok _ => true | err _ => false end.

Definition isErr (r : Result T E) : bool := negb (isOk r).

Definition map (r : Result T E) (f : T -> U) : Result U E :=
  match r with
  | ok v => ok (f v)
  | err e => err e
  end.

Definition mapErr (r : Result T E) (f : E -> F) : Result T F :=
  match r with
  | ok v => ok v
  | err e => err (f e)
  end.

(** Modelled from the spec: [andThen] calls [f] on the value of a Success
    and returns its Result; on a Failure it returns the Failure and does not
    call [f]. *)
Definition andThen (r : Result T E) (f : T -> Result U E) : Result U E :=
  match r with
  | ok v => f v
  | err e => err e
  end.

Definition match_ (r : Result T E) (onOk : T -> R) (onErr : E -> R) : R :=
  match r with
  | ok v => onOk v
  | err e => onErr e
  end.

Definition unwrapOr (r : Result T E) (v : T) : T :=
  match r with
  | ok x => x
  | err _ => v
  end.

End Methods.

End Neverthrow.
Import Neverthrow.

(** ** Domain errors ([src/errors.ts])

    Each class extends [Error]: an instance has the [message] its
    constructor passes to [super] and the [name] the constructor assigns. *)

Inductive ErrorClass : Type :=
| EmailValidationErrorClass
| PasswordValidationErrorClass
| AgeValidationErrorClass
| DuplicateEmailErrorClass
| DatabaseErrorClass.

(** The identifier of each class declaration. *)
Definition class_name (c : ErrorClass) : jsstring :=
  match c with
  | EmailValidationErrorClass => lit "EmailValidationError"
  | PasswordValidationErrorClass => lit "PasswordValidationError"
  | AgeValidationErrorClass => lit "AgeValidationError"
  | DuplicateEmailErrorClass => lit "DuplicateEmailError"
  | DatabaseErrorClass => lit "DatabaseError"
  end.

Module Error.
Record t : Type := mk {
  class_of : ErrorClass;
  message : jsstring;
  name : jsstring
}.
End Error.

Definition EmailValidationError (message : jsstring) : Error.t :=
  {| Error.class_of := EmailValidationErrorClass;
     Error.message := lit "Email validation failed: " ++ message;
     Error.name := lit "EmailValidationError" |}.

Definition PasswordValidationError (message : jsstring) : Error.t :=
  {| Error.class_of := PasswordValidationErrorClass;
     Error.message := lit "Password validation failed: " ++ message;
     Error.name := lit "PasswordValidationError" |}.

Definition AgeValidationError (message : jsstring) : Error.t :=
  {| Error.class_of := AgeValidationErrorClass;
     Error.message := lit "Age validation failed: " ++ message;
     Error.name := lit "AgeValidationError" |}.

Definition DuplicateEmailError (email : jsstring) : Error.t :=
  {| Error.class_of := DuplicateEmailErrorClass;
     Error.message := lit "Email already registered: " ++ email;
     Error.name := lit "DuplicateEmailError" |}.

Definition DatabaseError (message : jsstring) : Error.t :=
  {| Error.class_of := DatabaseErrorClass;
     Error.message := lit "Database error: " ++ message;
     Error.name := lit "DatabaseError" |}.

(** The constructor of each class, applied to its one argument. *)
Definition construct (c : ErrorClass) (arg : jsstring) : Error.t :=
  match c with
  | EmailValidationErrorClass => EmailValidationError arg
  | PasswordValidationErrorClass => PasswordValidationError arg
  | AgeValidationErrorClass => AgeValidationError arg
  | DuplicateEmailErrorClass => DuplicateEmailError arg
  | DatabaseErrorClass => DatabaseError arg
  end.

(** The kind prefix of each class, as the specification lists them. *)
Definition kind_prefix (c : ErrorClass) : jsstring :=
  match c with
  | EmailValidationErrorClass => lit "Email validation failed: "
  | PasswordValidationErrorClass => lit "Password validation failed: "
  | AgeValidationErrorClass => lit "Age validation failed: "
  | DuplicateEmailErrorClass => lit "Email already registered: "
  | DatabaseErrorClass => lit "Database error: "
  end.

(** ** Plain data of the pipeline *)

Module UserPayload.
Record t : Type := mk {
  email : jsstring;
  password : jsstring;
  age : number
}.
End UserPayload.

Module ValidationIssue.
Record t : Type := mk {
  field : jsstring;
  message : jsstring
}.
End ValidationIssue.

(** The object [{ email, password }] that [validateAll_Collect] returns. *)
Module Credentials.
Record t : Type := mk {
  email : jsstring;
  password : jsstring
}.
End Credentials.

(** ** Effects

    The functions of the source write to the console, and the lookup awaits
    a timer. A computation returns its value together with the events it
    performed, in order. *)

Inductive JsValue : Type :=
| VString (s : jsstring)
| VPayload (p : UserPayload.t).

Inductive Event : Type :=
| ConsoleLog (args : list JsValue)
| SetTimeout (ms : Z).

Definition IO (A : Type) : Type := (A * list Event)%type.

Definition ret {A : Type} (a : A) : IO A := (a, []).

Definition bind {A B : Type} (m : IO A) (k : A -> IO B) : IO B :=
  let (a, t1) := m in
  let (b, t2) := k a in
  (b, t1 ++ t2).

Definition emit (e : Event) : IO unit := (tt, [e]).

Definition value_of {A : Type} (m : IO A) : A := fst m.
Definition trace_of {A : Type} (m : IO A) : list Event := snd m.

Declare Scope io_scope.
Delimit Scope io_scope with io.
Notation "x <- m ;; k" := (bind m (fun x => k))
  (at level 61, m at next level, right associativity) : io_scope.
Notation "m ;; k" := (bind m (fun _ => k))
  (at level 61, right associativity) : io_scope.
Open Scope io_scope.

Definition console_log (args : list JsValue) : IO unit := emit (ConsoleLog args).

(** [await new Promise((resolve) => setTimeout(resolve, ms))]: the timer
    always fires, and the function resumes after it. *)
Definition await_timeout (ms : Z) : IO unit := emit (SetTimeout ms).

(** A literal that starts with a line feed escape. *)
Definition nl (s : string) : jsstring := 10%N :: lit s.

(** The check mark and the ballot cross the log lines start with. *)
Definition check_mark : code_unit := 0x2713%N.
Definition ballot_x : code_unit := 0x2717%N.

(** [andThen] with a callback that may perform effects: the callback's
    events are part of the result only when it is called. *)
Definition andThen_io {T U E : Type}
    (r : Result T E) (f : T -> IO (Result U E)) : IO (Result U E) :=
  match r with
  | ok v => f v
  | err e => ret (err e)
  end.

(** A chain [r.andThen(g1).andThen(g2)...]. *)
Definition chain {T E : Type}
    (r : Result T E) (gs : list (T -> Result T E)) : Result T E :=
  fold_left andThen gs r.

(** ** The validators and composers *)

Section Pipeline.

(** [String.prototype.toLowerCase] of the engine: the Unicode default case
    conversion. Its table is not part of the program; the functions below
    are stated for any [toLowerCase]. *)
Variable toLowerCase : jsstring -> jsstring.

(** *** [src/neverthrow.ts] *)

Definition validateEmail_NeverThrow (email : jsstring) : Result jsstring Error.t :=
  if negb (includes email (lit "@")) then
    err (EmailValidationError (lit "Missing @ symbol"))
  else if negb (includes email (lit ".")) then
    err (EmailValidationError (lit "Missing domain"))
  else
    ok (trim (toLowerCase email)).

Definition validatePassword_NeverThrow (password : jsstring) : Result jsstring Error.t :=
  if (List.length password <? 8)%nat then
    err (PasswordValidationError (lit "Too short"))
  else if negb (test_A_Z password) then
    err (PasswordValidationError (lit "Missing uppercase"))
  else if negb (test_0_9 password) then
    err (PasswordValidationError (lit "Missing number"))
  else
    ok password.

Definition validateAge_NeverThrow (age : number) : Result number Error.t :=
  if num_lt age n13 then
    err (AgeValidationError (lit "Must be 13 or older"))
  else if num_gt age n120 then
    err (AgeValidationError (lit "Invalid age"))
  else
    ok age.

Definition createUserPayload (email password : jsstring) (age : number)
  : IO (Result UserPayload.t Error.t) :=
  console_log [VString (nl "--- 4.3: Chaining with andThen() ---")] ;;
  ret (andThen
         (andThen (validateEmail_NeverThrow email)
            (fun validEmail =>
               map (validatePassword_NeverThrow password)
                 (fun validPassword =>
                    {| UserPayload.email := validEmail;
                       UserPayload.password := validPassword;
                       UserPayload.age := age |})))
         (fun partial =>
            map (validateAge_NeverThrow (UserPayload.age partial))
              (fun validAge =>
                 {| UserPayload.email := UserPayload.email partial;
                    UserPayload.password := UserPayload.password partial;
                    UserPayload.age := validAge |}))).

Definition checkEmailExists (email : jsstring) : IO bool :=
  await_timeout 10 ;;
  ret (includes email (lit "existing")).

Definition findUserByEmail (email : jsstring) : IO (Result jsstring Error.t) :=
  exists_ <- checkEmailExists email ;;
  if exists_ : bool then ret (err (DuplicateEmailError email))
  else ret (ok email).

Definition registerUser_NeverThrow (email password : jsstring) (age : number)
  : IO unit :=
  console_log [VString (nl "--- 4.4: Async with ResultAsync ---")] ;;
  payloadResult <- createUserPayload email password age ;;
  match payloadResult with
  | err error =>
      console_log [VString (ballot_x :: lit " Registration failed:");
                   VString (Error.message error)]
  | ok value =>
      dbCheck <- findUserByEmail (UserPayload.email value) ;;
      match dbCheck with
      | err error =>
          console_log [VString (ballot_x :: lit " Registration failed:");
                       VString (Error.message error)]
      | ok _ =>
          let payload := value in
          console_log [VString (check_mark :: lit " All validations passed")] ;;
          console_log [VString (lit "  User payload:"); VPayload payload] ;;
          console_log [VString (check_mark :: lit " Registration successful:");
                       VString (UserPayload.email payload)]
      end
  end.

(** *** [src/errors-as-values.ts] *)

Definition validateEmail_Collect (email : jsstring)
  : Result jsstring ValidationIssue.t :=
  if negb (includes email (lit "@")) then
    err {| ValidationIssue.field := lit "email";
           ValidationIssue.message := lit "Missing @ symbol" |}
  else if negb (includes email (lit ".")) then
    err {| ValidationIssue.field := lit "email";
           ValidationIssue.message := lit "Missing domain" |}
  else
    ok (trim (toLowerCase email)).

Definition validatePassword_Collect (password : jsstring)
  : Result jsstring ValidationIssue.t :=
  if (List.length password <? 8)%nat then
    err {| ValidationIssue.field := lit "password";
           ValidationIssue.message := lit "Too short" |}
  else
    ok password.

Definition validateAll_Collect (email password : jsstring)
  : IO (Result Credentials.t (list ValidationIssue.t)) :=
  console_log [VString (nl "--- 5.3: Collect Multiple Errors ---")] ;;
  let emailResult := validateEmail_Collect email in
  let passwordResult := validatePassword_Collect password in
  match emailResult with
  | err emailError =>
      let issues := [emailError] in
      let issues :=
        match passwordResult with
        | err passwordError => issues ++ [passwordError]
        | ok _ => issues
        end in
      ret (err issues)
  | ok emailValue =>
      match passwordResult with
      | err passwordError => ret (err [passwordError])
      | ok passwordValue =>
          ret (ok {| Credentials.email := emailValue;
                     Credentials.password := passwordValue |})
      end
  end.

Definition validateWithFallback (email : jsstring)
  : IO (Result jsstring Error.t) :=
  console_log [VString (nl "--- 5.6: Error Recovery without Try-Catch ---")] ;;
  let result := validateEmail_NeverThrow email in
  match result with
  | err error =>
      console_log [VString (lit "  -> Received error as value:");
                   VString (Error.message error)] ;;
      if includes (Error.message error) (lit "Missing @") then
        console_log [VString (lit "  -> Attempting recovery with default...")] ;;
        let recovered := lit "user@default.com" in
        console_log [VString (lit "  -> Recovered to:"); VString recovered] ;;
        ret (ok recovered)
      else
        ret result
  | ok value =>
      console_log [VString (lit "  -> No error, returning valid email:");
                   VString value] ;;
      ret result
  end.

End Pipeline.

(** ** The rest of the three modules *)

(** The object [{ email, age }] that [validateWithDefaults] returns. *)
Module EmailAge.
Record t : Type := mk {
  email : jsstring;
  age : number
}.
End EmailAge.

(** A [Date]: its time value, in milliseconds since the epoch. *)
Module Date.
Record t : Type := mk {
  time : Z
}.
End Date.

Module ApiError.
Record t : Type := mk {
  code : jsstring;
  timestamp : Date.t
}.
End ApiError.

Module ErrorLogEntry.
Record t : Type := mk {
  timestamp : Date.t;
  error : Error.t
}.
End ErrorLogEntry.

(** What [console.log] is given in [handleRegistration_NeverThrow], which
    prints a number beside its strings. *)
Inductive LogValue : Type :=
| LString (s : jsstring)
| LNumber (n : number).

Section Recovery.

Variable toLowerCase : jsstring -> jsstring.

(** *** [src/neverthrow.ts], continued *)

(** The function only writes to the console: the model is the list of its
    [console.log] calls, in order. Each [match] runs the handler of the
    variant at hand. *)
Definition handleRegistration_NeverThrow
    (email password : jsstring) (age : number) : list (list LogValue) :=
  let emailResult := validateEmail_NeverThrow toLowerCase email in
  let passwordResult := validatePassword_NeverThrow password in
  let ageResult := validateAge_NeverThrow age in
  [LString (nl "--- 4.2: Pattern Matching with match() ---")]
  :: match_ emailResult
       (fun validEmail =>
          [LString (check_mark :: lit " Email valid:"); LString validEmail])
       (fun error =>
          [LString (ballot_x :: lit " Email error:");
           LString (Error.message error)])
  :: match_ passwordResult
       (fun validPassword => [LString (check_mark :: lit " Password valid")])
       (fun error =>
          [LString (ballot_x :: lit " Password error:");
           LString (Error.message error)])
  :: match_ ageResult
       (fun validAge =>
          [LString (check_mark :: lit " Age valid:"); LNumber validAge])
       (fun error =>
          [LString (ballot_x :: lit " Age error:");
           LString (Error.message error)])
  :: [].

Definition validateWithDefaults (email : jsstring) (age : number)
  : IO (Result EmailAge.t Error.t) :=
  console_log [VString (nl "--- 4.5: Error Recovery with orElse() ---")] ;;
  let emailResult := validateEmail_NeverThrow toLowerCase email in
  match emailResult with
  | err error =>
      console_log [VString (lit "Recovering from email error:");
                   VString (Error.message error)]
  | ok _ => ret tt
  end ;;
  let validEmail :=
    match emailResult with
    | ok value => value
    | err _ => lit "default@example.com"
    end in
  let ageResult := validateAge_NeverThrow age in
  let validAge :=
    match ageResult with
    | ok value => value
    | err _ => of_Z 25
    end in
  ret (ok {| EmailAge.email := validEmail; EmailAge.age := validAge |}).

(** *** [src/errors-as-values.ts], continued *)

Definition processUserInput (email password : jsstring) (age : number)
  : IO (Result UserPayload.t Error.t) :=
  console_log [VString (nl "--- 5.1: Errors Flow Through the Pipeline ---")] ;;
  let emailResult := validateEmail_NeverThrow toLowerCase email in
  let passwordResult := validatePassword_NeverThrow password in
  let ageResult := validateAge_NeverThrow age in
  ret (andThen
         (andThen emailResult
            (fun validEmail =>
               map (validatePassword_NeverThrow password)
                 (fun validPassword =>
                    {| UserPayload.email := validEmail;
                       UserPayload.password := validPassword;
                       UserPayload.age := age |})))
         (fun partial =>
            map ageResult
              (fun validAge =>
                 {| UserPayload.email := UserPayload.email partial;
                    UserPayload.password := UserPayload.password partial;
                    UserPayload.age := validAge |}))).

Definition validateEmail_ForApi (email : jsstring) : Result jsstring Error.t :=
  if negb (includes email (lit "@")) then
    err (EmailValidationError (lit "Missing @ symbol"))
  else
    ok (trim (toLowerCase email)).

(** [now] is the instant [new Date()] reads when the error is converted. *)
Definition convertToApiError (now : Date.t) (error : Error.t) : ApiError.t :=
  {| ApiError.code := lit "VALIDATION_ERROR";
     ApiError.timestamp := now |}.

Definition validateAndFormatError (now : Date.t) (email : jsstring)
  : IO (Result jsstring ApiError.t) :=
  console_log [VString (nl "--- 5.2: Transform Errors with mapErr ---")] ;;
  ret (mapErr (validateEmail_ForApi email) (convertToApiError now)).

(** [errorLog] is the module's array: the function takes its content and
    returns, with the Result, its content afterwards. [now] is the instant
    [new Date()] reads when an entry is pushed. *)
Definition validateAndRecord
    (now : Date.t) (email : jsstring) (errorLog : list ErrorLogEntry.t)
  : IO (Result jsstring Error.t * list ErrorLogEntry.t) :=
  console_log [VString (nl "--- 5.5: Store Errors in Data Structures ---")] ;;
  let result := validateEmail_NeverThrow toLowerCase email in
  match result with
  | err error =>
      ret (result,
           errorLog ++ [{| ErrorLogEntry.timestamp := now;
                           ErrorLogEntry.error := error |}])
  | ok _ => ret (result, errorLog)
  end.

Definition validateWithConditionalHandling (email : jsstring)
  : IO (Result jsstring Error.t) :=
  console_log
    [VString (nl "--- 5.7: Conditional Handling Based on Error Type ---")] ;;
  let emailResult := validateEmail_NeverThrow toLowerCase email in
  match emailResult with
  | err error =>
      if includes (Error.message error) (lit "domain") then
        console_log [VString (lit "  -> Suggesting common domains...")] ;;
        ret (ok (lit "user@gmail.com"))
      else
        console_log [VString (lit "  -> Returning original error")] ;;
        ret emailResult
  | ok _ =>
      console_log [VString (lit "  -> Email valid, no error to handle")] ;;
      ret emailResult
  end.

End Recovery.

(** ** Exceptions ([src/try-catch.ts])

    A call either returns a value or throws; the functions of this module
    throw instances of the error classes only. A computation yields its
    completion together with the console lines written before it. *)

Inductive Completion (A : Type) : Type :=
| Return (value : A)
| Throw (error : Error.t).

Arguments Return {A} value.
Arguments Throw {A} error.

Definition Exn (A : Type) : Type := IO (Completion A).

(** Sequencing: a throw skips what follows. *)
Definition exn_bind {A B : Type} (m : Exn A) (k : A -> Exn B) : Exn B :=
  let (c, t1) := m in
  match c with
  | Return a => let (c2, t2) := k a in (c2, t1 ++ t2)
  | Throw e => (Throw e, t1)
  end.

(** [try { body } catch (error) { handler }] *)
Definition try_catch {A : Type} (body : Exn A) (handler : Error.t -> Exn A)
  : Exn A :=
  let (c, t1) := body in
  match c with
  | Return a => (Return a, t1)
  | Throw e => let (c2, t2) := handler e in (c2, t1 ++ t2)
  end.

Definition exn_ret {A : Type} (a : A) : Exn A := (Return a, []).
Definition throw {A : Type} (e : Error.t) : Exn A := (Throw e, []).
Definition exn_log (args : list JsValue) : Exn unit :=
  (Return tt, [ConsoleLog args]).

Declare Scope exn_scope.
Delimit Scope exn_scope with exn.
Notation "x <- m ;; k" := (exn_bind m (fun x => k))
  (at level 61, m at next level, right associativity) : exn_scope.
Notation "m ;; k" := (exn_bind m (fun _ => k))
  (at level 61, right associativity) : exn_scope.

(** [error instanceof C] for an instance of one of the five classes. *)
Definition instanceof (error : Error.t) (c : ErrorClass) : bool :=
  match Error.class_of error, c with
  | EmailValidationErrorClass, EmailValidationErrorClass => true
  | PasswordValidationErrorClass, PasswordValidationErrorClass => true
  | AgeValidationErrorClass, AgeValidationErrorClass => true
  | DuplicateEmailErrorClass, DuplicateEmailErrorClass => true
  | DatabaseErrorClass, DatabaseErrorClass => true
  | _, _ => false
  end.

(** The object [registerUser_TryCatch] resolves to: [{ success: true,
    userId }] or [{ success: false, error }]. *)
Inductive RegistrationOutcome : Type :=
| Registered (userId : jsstring)
| NotRegistered (error : jsstring).

Section TryCatch.

Variable toLowerCase : jsstring -> jsstring.

Definition validateEmail_FP1 (email : jsstring) : Exn jsstring :=
  if negb (includes email (lit "@")) then
    throw (EmailValidationError (lit "Missing @ symbol"))
  else if negb (includes email (lit ".")) then
    throw (EmailValidationError (lit "Missing domain"))
  else
    exn_ret (trim (toLowerCase email)).

Definition validatePassword_FP1 (password : jsstring) : Exn jsstring :=
  if (List.length password <? 8)%nat then
    throw (PasswordValidationError (lit "Too short"))
  else if negb (test_A_Z password) then
    throw (PasswordValidationError (lit "Missing uppercase"))
  else if negb (test_0_9 password) then
    throw (PasswordValidationError (lit "Missing number"))
  else
    exn_ret password.

Definition validateAge_FP1 (age : number) : Exn number :=
  if num_lt age n13 then
    throw (AgeValidationError (lit "Must be 13 or older"))
  else if num_gt age n120 then
    throw (AgeValidationError (lit "Invalid age"))
  else
    exn_ret age.

Definition saveUserToDatabase_FP1 (user : UserPayload.t) : Exn jsstring :=
  if includes (UserPayload.email user) (lit "admin") then
    throw (DatabaseError (lit "Email reserved"))
  else
    exn_ret (lit "user-123").

(** [typeof error] is "object" for every instance of an error class. *)
Definition registerUser_TryCatch (email password : jsstring) (age : number)
  : Exn RegistrationOutcome :=
  (exn_log [VString (nl "--- PROBLEM 1: Blind Try-Catch ---")] ;;
   try_catch
     (validEmail <- validateEmail_FP1 email ;;
      validPassword <- validatePassword_FP1 password ;;
      validAge <- validateAge_FP1 age ;;
      userId <- saveUserToDatabase_FP1
                  {| UserPayload.email := validEmail;
                     UserPayload.password := validPassword;
                     UserPayload.age := validAge |} ;;
      exn_ret (Registered userId))
     (fun error =>
        exn_log [VString (lit "Caught error, but...")] ;;
        exn_log [VString (lit "  - Type:"); VString (lit "object")] ;;
        exn_log [VString (lit "  - Name:"); VString (Error.name error)] ;;
        exn_log [VString (lit "  - Message:");
                 VString (Error.message error)] ;;
        exn_ret (NotRegistered (lit "Something failed"))))%exn.

Definition registerUser_Nested (email password : jsstring) (age : number)
  : Exn unit :=
  (exn_log [VString (nl "--- PROBLEM 3: Nested Try-Catch Hell ---")] ;;
   try_catch
     (try_catch
        (try_catch
           (validEmail <- validateEmail_FP1 email ;;
            exn_log [VString (lit "Email OK:"); VString validEmail])
           (fun error =>
              if instanceof error EmailValidationErrorClass then
                exn_log [VString (lit "Handle email error:");
                         VString (Error.message error)] ;;
                throw error
              else exn_ret tt))
        (fun error =>
           try_catch
             (validPassword <- validatePassword_FP1 password ;;
              exn_log [VString (lit "Password OK:"); VString validPassword])
             (fun error =>
                if instanceof error PasswordValidationErrorClass then
                  exn_log [VString (lit "Handle password error:");
                           VString (Error.message error)] ;;
                  throw error
                else exn_ret tt)))
     (fun error =>
        exn_log
          [VString
             (lit "Final error handler - still unclear what went wrong")]))%exn.

End TryCatch.

(** ** Vocabulary of the specification *)

Definition at_sign : code_unit := 0x40%N.
Definition full_stop : code_unit := 0x2E%N.

(** An uppercase letter and a digit, as the two regular expressions of the
    source read them: the ranges A-Z and 0-9. *)
Definition is_uppercase (c : code_unit) : Prop := (0x41 <= c <= 0x5A)%N.
Definition is_digit (c : code_unit) : Prop := (0x30 <= c <= 0x39)%N.

Definition has_uppercase (s : jsstring) : Prop :=
  exists c, In c s /\ is_uppercase c.
Definition has_digit (s : jsstring) : Prop :=
  exists c, In c s /\ is_digit c.

(** Text on which [toLowerCase] is fixed by the ASCII mapping. *)
Definition all_ascii (s : jsstring) : bool := forallb (fun c => c <? 128)%N s.

(** What is known of the engine's [toLowerCase]: on ASCII text it maps
    A-Z to a-z and leaves every other code unit alone. *)
Definition lowercases_ascii (toLowerCase : jsstring -> jsstring) : Prop :=
  forall s, all_ascii s = true -> toLowerCase s = asciiToLowerCase s.

(** The issue a field validator produced, if any. *)
Definition issues_of {T : Type} (r : Result T ValidationIssue.t)
  : list ValidationIssue.t :=
  match r with
  | ok _ => []
  | err issue => [issue]
  end.

(** The lookup awaits a timer before it answers: a trace in which the
    lookup ran holds a [SetTimeout] event. *)
Definition is_timer (e : Event) : bool :=
  match e with
  | SetTimeout _ => true
  | ConsoleLog _ => false
  end.

Definition lookup_invoked (t : list Event) : bool := existsb is_timer t.

(** The line [registerUser_NeverThrow] logs when it gives up with [error]. *)
Definition log_failed (error : Error.t) : Event :=
  ConsoleLog [VString (ballot_x :: lit " Registration failed:");
              VString (Error.message error)].

(** The three lines it logs when it accepts [payload]. *)
Definition log_registered (payload : UserPayload.t) : list Event :=
  [ConsoleLog [VString (check_mark :: lit " All validations passed")];
   ConsoleLog [VString (lit "  User payload:"); VPayload payload];
   ConsoleLog [VString (check_mark :: lit " Registration successful:");
               VString (UserPayload.email payload)]].

(** A console line of [handleRegistration_NeverThrow] that reports a
    failure: its first argument starts with the ballot cross. *)
Definition is_cross_line (line : list LogValue) : bool :=
  match line with
  | LString (c :: _) :: _ => N.eqb c ballot_x
  | _ => false
  end.

Definition cross_lines (lines : list (list LogValue)) : nat :=
  List.length (filter is_cross_line lines).

(** 1 for a Failure, 0 for a Success. *)
Definition failed {T E : Type} (r : Result T E) : nat :=
  if isErr r then 1 else 0.

(** The content of [errorLog] after [validateAndRecord] ran on each input
    in turn, each with the instant of its call. *)
Fixpoint record_all (toLowerCase : jsstring -> jsstring)
    (calls : list (Date.t * jsstring)) (errorLog : list ErrorLogEntry.t)
  : list ErrorLogEntry.t :=
  match calls with
  | [] => errorLog
  | (now, email) :: rest =>
      record_all toLowerCase rest
        (snd (value_of (validateAndRecord toLowerCase now email errorLog)))
  end.

(** The entry a call leaves in the log: one for an invalid email, none for
    a valid one. *)
Definition entry_of (toLowerCase : jsstring -> jsstring)
    (call : Date.t * jsstring) : list ErrorLogEntry.t :=
  match validateEmail_NeverThrow toLowerCase (snd call) with
  | err error => [ErrorLogEntry.mk (fst call) error]
  | ok _ => []
  end.

(** A completion read as a Result: a return is a Success, a throw a
    Failure. *)
Definition to_result {A : Type} (c : Completion A) : Result A Error.t :=
  match c with
  | Return v => ok v
  | Throw e => err e
  end.

(** The four lines the handler of [registerUser_TryCatch] logs for
    [error]. *)
Definition caught_lines (error : Error.t) : list Event :=
  [ConsoleLog [VString (lit "Caught error, but...")];
   ConsoleLog [VString (lit "  - Type:"); VString (lit "object")];
   ConsoleLog [VString (lit "  - Name:"); VString (Error.name error)];
   ConsoleLog [VString (lit "  - Message:"); VString (Error.message error)]].

(** ** Properties *)

(** *** Strings *)

Lemma includes_code_unit (s : jsstring) (c : code_unit) :
  includes s [c] = true <-> In c s.
Proof.
  induction s as [|a s IH]; simpl.
  - split; [discriminate | tauto].
  - unfold code_unit_eqb. rewrite orb_true_iff, andb_true_iff, IH, N.eqb_eq.
    destruct s; simpl; intuition auto.
Qed.

Lemma includes_at_sign (s : jsstring) :
  includes s (lit "@") = true <-> In at_sign s.
Proof. apply includes_code_unit. Qed.

Lemma includes_full_stop (s : jsstring) :
  includes s (lit ".") = true <-> In full_stop s.
Proof. apply includes_code_unit. Qed.

Lemma test_A_Z_spec (s : jsstring) : test_A_Z s = true <-> has_uppercase s.
Proof.
  unfold test_A_Z, has_uppercase, is_uppercase, in_A_Z.
  rewrite existsb_exists.
  split; intros [c [Hin Hc]]; exists c; split; auto.
  - apply andb_true_iff in Hc. destruct Hc as [H1 H2].
    apply N.leb_le in H1. apply N.leb_le in H2. lia.
  - apply andb_true_iff. split; apply N.leb_le; lia.
Qed.

Lemma test_0_9_spec (s : jsstring) : test_0_9 s = true <-> has_digit s.
Proof.
  unfold test_0_9, has_digit, is_digit, in_0_9.
  rewrite existsb_exists.
  split; intros [c [Hin Hc]]; exists c; split; auto.
  - apply andb_true_iff in Hc. destruct Hc as [H1 H2].
    apply N.leb_le in H1. apply N.leb_le in H2. lia.
  - apply andb_true_iff. split; apply N.leb_le; lia.
Qed.

Lemma not_true_false (b : bool) : b <> true -> b = false.
Proof. destruct b; congruence. Qed.

(** *** Numbers *)

Lemma SFcompare_antisym (x y : spec_float) :
  SFcompare y x = option_map CompOpp (SFcompare x y).
Proof.
  destruct x as [sx|sx| |sx mx ex], y as [sy|sy| |sy my ey]; simpl;
    try reflexivity;
    try (destruct sx; reflexivity);
    try (destruct sy; reflexivity);
    try (destruct sx, sy; reflexivity).
  destruct sx, sy; try reflexivity; f_equal;
    rewrite (Z.compare_antisym ey ex);
    destruct (Z.compare ey ex); simpl; try reflexivity;
    rewrite (Pos.compare_cont_antisym mx my Eq); simpl;
    try rewrite CompOpp_involutive; reflexivity.
Qed.

Lemma num_le_not_gt (a b : number) : num_le a b = true -> num_gt a b = false.
Proof.
  unfold num_le, num_gt, SFleb, SFltb. rewrite (SFcompare_antisym a b).
  destruct (SFcompare a b) as [[| |]|]; simpl; congruence.
Qed.

Lemma num_le_not_lt (a b : number) : num_le a b = true -> num_lt b a = false.
Proof. apply num_le_not_gt. Qed.

Lemma num_gt_120_not_lt_13 (a : number) :
  num_gt a n120 = true -> num_lt a n13 = false.
Proof.
  unfold num_gt, num_lt, SFltb.
  destruct a as [s|s| |s m e];
    cbv beta iota delta [SFcompare n13 n120];
    try destruct s; try congruence.
  destruct (Z.compare_spec (-46) e), (Z.compare_spec e (-49));
    try lia; congruence.
Qed.

Section Properties.

Variable toLowerCase : jsstring -> jsstring.

Abbreviation validateEmail := (validateEmail_NeverThrow toLowerCase).

(** *** The field validators *)

Lemma validateEmail_missing_at (email : jsstring) :
  ~ In at_sign email ->
  validateEmail email = err (EmailValidationError (lit "Missing @ symbol")).
Proof.
  intros Hat. unfold validateEmail_NeverThrow.
  rewrite <- includes_at_sign in Hat.
  apply not_true_false in Hat. now rewrite Hat.
Qed.

Lemma validateEmail_missing_domain (email : jsstring) :
  In at_sign email -> ~ In full_stop email ->
  validateEmail email = err (EmailValidationError (lit "Missing domain")).
Proof.
  intros Hat Hdot. unfold validateEmail_NeverThrow.
  rewrite <- includes_at_sign in Hat.
  rewrite <- includes_full_stop in Hdot.
  apply not_true_false in Hdot. now rewrite Hat, Hdot.
Qed.

Lemma validateEmail_valid (email : jsstring) :
  In at_sign email -> In full_stop email ->
  validateEmail email = ok (trim (toLowerCase email)).
Proof.
  intros Hat Hdot. unfold validateEmail_NeverThrow.
  rewrite <- includes_at_sign in Hat.
  rewrite <- includes_full_stop in Hdot. now rewrite Hat, Hdot.
Qed.

(** C2. For every string [email]: without an at sign the validator fails
    with the [EmailValidationError] built from "Missing @ symbol"; with an
    at sign but no full stop it fails with the one built from
    "Missing domain"; otherwise it succeeds with the email lowercased, then
    trimmed. The message named here is the argument of the constructor. *)
Theorem validateEmail_NeverThrow_cases (email : jsstring) :
  (~ In at_sign email ->
     validateEmail email = err (EmailValidationError (lit "Missing @ symbol"))) /\
  (In at_sign email -> ~ In full_stop email ->
     validateEmail email = err (EmailValidationError (lit "Missing domain"))) /\
  (In at_sign email -> In full_stop email ->
     validateEmail email = ok (trim (toLowerCase email))).
Proof.
  split; [|split].
  - apply validateEmail_missing_at.
  - apply validateEmail_missing_domain.
  - apply validateEmail_valid.
Qed.

Lemma validatePassword_too_short (password : jsstring) :
  List.length password < 8 ->
  validatePassword_NeverThrow password
  = err (PasswordValidationError (lit "Too short")).
Proof.
  intros Hlen. unfold validatePassword_NeverThrow.
  apply Nat.ltb_lt in Hlen. now rewrite Hlen.
Qed.

Lemma validatePassword_missing_uppercase (password : jsstring) :
  8 <= List.length password -> ~ has_uppercase password ->
  validatePassword_NeverThrow password
  = err (PasswordValidationError (lit "Missing uppercase")).
Proof.
  intros Hlen Hup. unfold validatePassword_NeverThrow.
  apply Nat.ltb_ge in Hlen. rewrite Hlen.
  rewrite <- test_A_Z_spec in Hup. apply not_true_false in Hup.
  now rewrite Hup.
Qed.

Lemma validatePassword_missing_number (password : jsstring) :
  8 <= List.length password -> has_uppercase password ->
  ~ has_digit password ->
  validatePassword_NeverThrow password
  = err (PasswordValidationError (lit "Missing number")).
Proof.
  intros Hlen Hup Hdig. unfold validatePassword_NeverThrow.
  apply Nat.ltb_ge in Hlen. rewrite Hlen.
  rewrite <- test_A_Z_spec in Hup. rewrite <- test_0_9_spec in Hdig.
  apply not_true_false in Hdig. now rewrite Hup, Hdig.
Qed.

Lemma validatePassword_valid (password : jsstring) :
  8 <= List.length password -> has_uppercase password ->
  has_digit password ->
  validatePassword_NeverThrow password = ok password.
Proof.
  intros Hlen Hup Hdig. unfold validatePassword_NeverThrow.
  apply Nat.ltb_ge in Hlen. rewrite Hlen.
  rewrite <- test_A_Z_spec in Hup. rewrite <- test_0_9_spec in Hdig.
  now rewrite Hup, Hdig.
Qed.

(** C3. For every string [password]: shorter than 8 code units it fails
    with "Too short"; else without a letter A-Z it fails with
    "Missing uppercase"; else without a digit 0-9 it fails with
    "Missing number"; otherwise it succeeds with the password itself. Each
    rule is reached only when the ones before it hold. *)
Theorem validatePassword_NeverThrow_cases (password : jsstring) :
  (List.length password < 8 ->
     validatePassword_NeverThrow password
     = err (PasswordValidationError (lit "Too short"))) /\
  (8 <= List.length password -> ~ has_uppercase password ->
     validatePassword_NeverThrow password
     = err (PasswordValidationError (lit "Missing uppercase"))) /\
  (8 <= List.length password -> has_uppercase password ->
   ~ has_digit password ->
     validatePassword_NeverThrow password
     = err (PasswordValidationError (lit "Missing number"))) /\
  (8 <= List.length password -> has_uppercase password ->
   has_digit password ->
     validatePassword_NeverThrow password = ok password).
Proof.
  split; [|split; [|split]].
  - apply validatePassword_too_short.
  - apply validatePassword_missing_uppercase.
  - apply validatePassword_missing_number.
  - apply validatePassword_valid.
Qed.

(** C4. For every number [age]: below 13 the validator fails with
    "Must be 13 or older"; above 120 it fails with "Invalid age"; from 13
    to 120, bounds included, it succeeds with the age itself. *)
Theorem validateAge_NeverThrow_cases (age : number) :
  (num_lt age n13 = true ->
     validateAge_NeverThrow age
     = err (AgeValidationError (lit "Must be 13 or older"))) /\
  (num_gt age n120 = true ->
     validateAge_NeverThrow age = err (AgeValidationError (lit "Invalid age"))) /\
  (num_le n13 age = true -> num_le age n120 = true ->
     validateAge_NeverThrow age = ok age).
Proof.
  unfold validateAge_NeverThrow.
  repeat split.
  - intros Hlt. now rewrite Hlt.
  - intros Hgt. rewrite (num_gt_120_not_lt_13 _ Hgt). now rewrite Hgt.
  - intros Hlo Hhi. rewrite (num_le_not_lt _ _ Hlo).
    now rewrite (num_le_not_gt _ _ Hhi).
Qed.

(** What a validator returns on success. *)
Lemma validateEmail_ok_value (email v : jsstring) :
  validateEmail email = ok v -> v = trim (toLowerCase email).
Proof.
  unfold validateEmail_NeverThrow.
  destruct (includes email (lit "@")); simpl; [|discriminate].
  destruct (includes email (lit ".")); simpl; congruence.
Qed.

Lemma validatePassword_ok_value (password v : jsstring) :
  validatePassword_NeverThrow password = ok v -> v = password.
Proof.
  unfold validatePassword_NeverThrow.
  destruct (List.length password <? 8)%nat; [discriminate|].
  destruct (test_A_Z password); simpl; [|discriminate].
  destruct (test_0_9 password); simpl; congruence.
Qed.

Lemma validateAge_ok_value (age v : number) :
  validateAge_NeverThrow age = ok v -> v = age.
Proof.
  unfold validateAge_NeverThrow.
  destruct (num_lt age n13); [discriminate|].
  destruct (num_gt age n120); congruence.
Qed.

(** *** The short-circuit composer *)

Lemma createUserPayload_value (email password : jsstring) (age : number) :
  value_of (createUserPayload toLowerCase email password age)
  = andThen
      (andThen (validateEmail email)
         (fun validEmail =>
            map (validatePassword_NeverThrow password)
              (fun validPassword =>
                 UserPayload.mk validEmail validPassword age)))
      (fun partial =>
         map (validateAge_NeverThrow (UserPayload.age partial))
           (fun validAge =>
              UserPayload.mk (UserPayload.email partial)
                (UserPayload.password partial) validAge)).
Proof. reflexivity. Qed.

Lemma createUserPayload_trace (email password : jsstring) (age : number) :
  trace_of (createUserPayload toLowerCase email password age)
  = [ConsoleLog [VString (nl "--- 4.3: Chaining with andThen() ---")]].
Proof. reflexivity. Qed.

(** C1. For every email, password and age: a Success of
    [createUserPayload] means each of the three inputs passed its own
    validator, and the payload holds the email lowercased then trimmed, the
    password as given and the age as given; a Failure holds the one error of
    the first validator that fails, email before password before age. The
    two sample registrations of the specification come out as it says. *)
Theorem createUserPayload_spec (email password : jsstring) (age : number) :
  let result := value_of (createUserPayload toLowerCase email password age) in
  (forall payload, result = ok payload ->
     validateEmail email = ok (UserPayload.email payload) /\
     validatePassword_NeverThrow password = ok (UserPayload.password payload) /\
     validateAge_NeverThrow age = ok (UserPayload.age payload) /\
     payload = UserPayload.mk (trim (toLowerCase email)) password age) /\
  (forall e, validateEmail email = err e -> result = err e) /\
  (forall e, isOk (validateEmail email) = true ->
     validatePassword_NeverThrow password = err e -> result = err e) /\
  (forall e, isOk (validateEmail email) = true ->
     isOk (validatePassword_NeverThrow password) = true ->
     validateAge_NeverThrow age = err e -> result = err e) /\
  (lowercases_ascii toLowerCase ->
     value_of (createUserPayload toLowerCase (lit "Test@Example.COM")
                 (lit "SecurePass123") (of_Z 30))
     = ok (UserPayload.mk (lit "test@example.com") (lit "SecurePass123")
             (of_Z 30))) /\
  value_of (createUserPayload toLowerCase (lit "bademail") (lit "short")
              (of_Z 5))
  = err (EmailValidationError (lit "Missing @ symbol")).
Proof.
  cbv zeta. rewrite createUserPayload_value.
  split; [|split; [|split; [|split; [|split]]]].
  - intros payload.
    destruct (validateEmail email) as [ve|ee] eqn:He; simpl; [|discriminate].
    destruct (validatePassword_NeverThrow password) as [vp|ep] eqn:Hp; simpl;
      [|discriminate].
    destruct (validateAge_NeverThrow age) as [va|ea] eqn:Ha; simpl;
      [|discriminate].
    intros H. inversion H; subst payload; simpl.
    apply validateEmail_ok_value in He. apply validatePassword_ok_value in Hp.
    apply validateAge_ok_value in Ha. subst. auto.
  - intros e He. rewrite He. reflexivity.
  - intros e He Hp.
    destruct (validateEmail email); [|discriminate]. rewrite Hp. reflexivity.
  - intros e He Hp Ha.
    destruct (validateEmail email); [|discriminate].
    destruct (validatePassword_NeverThrow password); [|discriminate].
    simpl. rewrite Ha. reflexivity.
  - intros Hlow. rewrite createUserPayload_value.
    unfold validateEmail_NeverThrow.
    rewrite (Hlow (lit "Test@Example.COM") eq_refl).
    vm_compute. reflexivity.
  - reflexivity.
Qed.

(** *** The chaining law *)

(** C7. [andThen] on a Failure returns that Failure with the same error
    and does not call its argument: the result is the same for every
    callback, and a callback that would log or await leaves no event. In a
    chain of [andThen] calls a Failure reaches the end unchanged, and so a
    failed email validation is what [createUserPayload] returns. *)
Theorem andThen_short_circuit :
  (forall (T U E : Type) (e : E) (g : T -> Result U E),
     andThen (err e) g = err e) /\
  (forall (T U E : Type) (e : E) (g : T -> IO (Result U E)),
     value_of (andThen_io (err e) g) = err e /\
     trace_of (andThen_io (err e) g) = []) /\
  (forall (T E : Type) (e : E) (gs : list (T -> Result T E)),
     chain (err e) gs = err e) /\
  (forall (email password : jsstring) (age : number) (e : Error.t),
     validateEmail email = err e ->
     value_of (createUserPayload toLowerCase email password age) = err e).
Proof.
  split; [|split; [|split]].
  - reflexivity.
  - intros; split; reflexivity.
  - intros T E e gs. unfold chain.
    induction gs as [|g gs IH]; simpl; [reflexivity | exact IH].
  - intros email password age e He.
    rewrite createUserPayload_value, He. reflexivity.
Qed.

(** *** The accumulating composer *)

(** C5. For every email and password, [validateAll_Collect] reports on
    both fields: when at least one field validator fails the result is the
    Failure holding every issue produced, the email issue before the
    password issue, two issues when both fail; when both succeed it is the
    Success with the normalized email and the password. The two samples of
    the specification come out as it says. *)
Theorem validateAll_Collect_spec (email password : jsstring) :
  let emailResult := validateEmail_Collect toLowerCase email in
  let passwordResult := validatePassword_Collect password in
  let result := value_of (validateAll_Collect toLowerCase email password) in
  (isErr emailResult = true \/ isErr passwordResult = true ->
     result = err (issues_of emailResult ++ issues_of passwordResult)) /\
  (forall emailIssue passwordIssue,
     emailResult = err emailIssue -> passwordResult = err passwordIssue ->
     result = err [emailIssue; passwordIssue]) /\
  (isOk emailResult = true -> isOk passwordResult = true ->
     result = ok (Credentials.mk (trim (toLowerCase email)) password)) /\
  value_of (validateAll_Collect toLowerCase (lit "bad") (lit "short"))
  = err [ValidationIssue.mk (lit "email") (lit "Missing @ symbol");
         ValidationIssue.mk (lit "password") (lit "Too short")] /\
  value_of (validateAll_Collect toLowerCase (lit "a@b.com") (lit "LongPass1"))
  = ok (Credentials.mk (trim (toLowerCase (lit "a@b.com"))) (lit "LongPass1")).
Proof.
  cbv zeta. unfold validateAll_Collect, value_of, bind, console_log, emit, ret.
  cbn [fst snd].
  split; [|split; [|split; [|split]]].
  - intros H.
    destruct (validateEmail_Collect toLowerCase email);
      destruct (validatePassword_Collect password); simpl in *;
      try reflexivity.
    destruct H; discriminate.
  - intros ei pi He Hp. rewrite He, Hp. reflexivity.
  - unfold validateEmail_Collect, validatePassword_Collect.
    destruct (includes email (lit "@")); simpl; [|discriminate].
    destruct (includes email (lit ".")); simpl; [|discriminate].
    destruct (List.length password <? 8)%nat; simpl; [discriminate|].
    reflexivity.
  - reflexivity.
  - reflexivity.
Qed.

(** *** Recovery *)

Lemma validateEmail_err_cases (email : jsstring) (e : Error.t) :
  validateEmail email = err e ->
  (~ In at_sign email /\ e = EmailValidationError (lit "Missing @ symbol")) \/
  (In at_sign email /\ ~ In full_stop email /\
   e = EmailValidationError (lit "Missing domain")).
Proof.
  unfold validateEmail_NeverThrow.
  destruct (includes email (lit "@")) eqn:Hat; simpl.
  - destruct (includes email (lit ".")) eqn:Hdot; simpl; [discriminate|].
    intros H. right. rewrite includes_at_sign in Hat.
    repeat split; [assumption | | congruence].
    rewrite <- includes_full_stop. congruence.
  - intros H. left. split; [|congruence].
    rewrite <- includes_at_sign. congruence.
Qed.

Lemma validateWithFallback_value (email : jsstring) :
  value_of (validateWithFallback toLowerCase email)
  = match validateEmail email with
    | err error =>
        if includes (Error.message error) (lit "Missing @")
        then ok (lit "user@default.com")
        else err error
    | ok value => ok value
    end.
Proof.
  unfold validateWithFallback.
  destruct (validateEmail email) as [v|e]; [reflexivity|].
  unfold value_of, bind, console_log, emit, ret; cbn [fst snd].
  destruct (includes (Error.message e) (lit "Missing @")); reflexivity.
Qed.

(** C6, amended. For every email, [validateWithFallback] puts the Success
    "user@default.com" in place of the validation result when the validation
    fails with an error whose message contains "Missing @", which is when
    the email has no at sign; every other Failure is returned unchanged and a
    Success is returned unchanged. So the result is the Success
    "user@default.com" exactly when the validation fails with such a message
    or succeeds with that very address. *)
Theorem validateWithFallback_spec (email : jsstring) :
  let result := value_of (validateWithFallback toLowerCase email) in
  let default := lit "user@default.com" in
  (forall e, validateEmail email = err e ->
     includes (Error.message e) (lit "Missing @") = true ->
     result = ok default) /\
  (forall e, validateEmail email = err e ->
     includes (Error.message e) (lit "Missing @") = false ->
     result = err e) /\
  (forall v, validateEmail email = ok v -> result = ok v) /\
  (~ In at_sign email -> result = ok default) /\
  (result = ok default <->
     (exists e, validateEmail email = err e /\
                includes (Error.message e) (lit "Missing @") = true) \/
     validateEmail email = ok default) /\
  value_of (validateWithFallback toLowerCase (lit "no-at-sign")) = ok default /\
  value_of (validateWithFallback toLowerCase (lit "a@nodomain"))
  = err (EmailValidationError (lit "Missing domain")) /\
  validateEmail_NeverThrow toLowerCase (lit "a@nodomain")
  = err (EmailValidationError (lit "Missing domain")).
Proof.
  cbv zeta. rewrite validateWithFallback_value.
  split; [|split; [|split; [|split; [|split; [|split; [|split]]]]]].
  - intros e He Hinc. now rewrite He, Hinc.
  - intros e He Hinc. now rewrite He, Hinc.
  - intros v Hv. now rewrite Hv.
  - intros Hat. rewrite (validateEmail_missing_at email Hat). reflexivity.
  - destruct (validateEmail email) as [v|e] eqn:He.
    + split.
      * intros H. right. exact H.
      * intros [[e [H _]]|H]; [discriminate | exact H].
    + destruct (includes (Error.message e) (lit "Missing @")) eqn:Hinc.
      * split; [|reflexivity]. intros _. left. exists e. auto.
      * split; [discriminate|].
        intros [[e' [H H']]|H]; [|discriminate].
        inversion H; subst e'. congruence.
  - reflexivity.
  - reflexivity.
  - reflexivity.
Qed.

(** *** The asynchronous registration *)

Lemma checkEmailExists_value (email : jsstring) :
  value_of (checkEmailExists email) = includes email (lit "existing").
Proof. reflexivity. Qed.

Lemma registerUser_NeverThrow_trace (email password : jsstring) (age : number) :
  trace_of (registerUser_NeverThrow toLowerCase email password age)
  = [ConsoleLog [VString (nl "--- 4.4: Async with ResultAsync ---")];
     ConsoleLog [VString (nl "--- 4.3: Chaining with andThen() ---")]]
    ++ match value_of (createUserPayload toLowerCase email password age) with
       | err error => [log_failed error]
       | ok payload =>
           SetTimeout 10 ::
           (if value_of (checkEmailExists (UserPayload.email payload))
            then [log_failed (DuplicateEmailError (UserPayload.email payload))]
            else log_registered payload)
       end.
Proof.
  unfold registerUser_NeverThrow.
  rewrite (surjective_pairing (createUserPayload toLowerCase email password age)).
  fold (value_of (createUserPayload toLowerCase email password age)).
  fold (trace_of (createUserPayload toLowerCase email password age)).
  rewrite createUserPayload_trace.
  destruct (value_of (createUserPayload toLowerCase email password age))
    as [payload|error]; [|reflexivity].
  unfold findUserByEmail, checkEmailExists, value_of, trace_of.
  unfold bind, console_log, await_timeout, emit, ret; cbn [fst snd].
  destruct (includes (UserPayload.email payload) (lit "existing"));
    reflexivity.
Qed.

(** C8. In [registerUser_NeverThrow] the duplicate-email lookup does not
    run when the payload construction fails: the function logs that failure
    and stops, and no timer is awaited. When the construction succeeds the
    lookup runs after it; if it reports the email as registered the function
    gives up with the [DuplicateEmailError] of that email, and otherwise it
    accepts the payload. The function returns nothing: it reports each
    outcome on the console. *)
Theorem registerUser_NeverThrow_spec
    (email password : jsstring) (age : number) :
  let payloadResult :=
    value_of (createUserPayload toLowerCase email password age) in
  let trace :=
    trace_of (registerUser_NeverThrow toLowerCase email password age) in
  let headers :=
    [ConsoleLog [VString (nl "--- 4.4: Async with ResultAsync ---")];
     ConsoleLog [VString (nl "--- 4.3: Chaining with andThen() ---")]] in
  (forall error, payloadResult = err error ->
     lookup_invoked trace = false /\
     trace = headers ++ [log_failed error]) /\
  (forall payload, payloadResult = ok payload ->
     value_of (checkEmailExists (UserPayload.email payload)) = true ->
     value_of (findUserByEmail (UserPayload.email payload))
     = err (DuplicateEmailError (UserPayload.email payload)) /\
     trace = headers ++ [SetTimeout 10;
                         log_failed (DuplicateEmailError
                                       (UserPayload.email payload))]) /\
  (forall payload, payloadResult = ok payload ->
     value_of (checkEmailExists (UserPayload.email payload)) = false ->
     value_of (findUserByEmail (UserPayload.email payload))
     = ok (UserPayload.email payload) /\
     trace = headers ++ SetTimeout 10 :: log_registered payload).
Proof.
  cbv zeta. rewrite registerUser_NeverThrow_trace.
  split; [|split].
  - intros error H. rewrite H. split; reflexivity.
  - intros payload H Hex. rewrite H, Hex. split; [|reflexivity].
    rewrite checkEmailExists_value in Hex.
    unfold findUserByEmail, checkEmailExists, value_of.
    unfold bind, await_timeout, emit, ret; cbn [fst snd].
    now rewrite Hex.
  - intros payload H Hex. rewrite H, Hex. split; [|reflexivity].
    rewrite checkEmailExists_value in Hex.
    unfold findUserByEmail, checkEmailExists, value_of.
    unfold bind, await_timeout, emit, ret; cbn [fst snd].
    now rewrite Hex.
Qed.

(** *** The error classes *)

Lemma validatePassword_err_cases (password : jsstring) (e : Error.t) :
  validatePassword_NeverThrow password = err e ->
  e = PasswordValidationError (lit "Too short") \/
  e = PasswordValidationError (lit "Missing uppercase") \/
  e = PasswordValidationError (lit "Missing number").
Proof.
  unfold validatePassword_NeverThrow.
  destruct (List.length password <? 8)%nat; [intros H; left; congruence|].
  destruct (test_A_Z password); simpl;
    [|intros H; right; left; congruence].
  destruct (test_0_9 password); simpl;
    [discriminate | intros H; right; right; congruence].
Qed.

Lemma validateAge_err_cases (age : number) (e : Error.t) :
  validateAge_NeverThrow age = err e ->
  e = AgeValidationError (lit "Must be 13 or older") \/
  e = AgeValidationError (lit "Invalid age").
Proof.
  unfold validateAge_NeverThrow.
  destruct (num_lt age n13); [intros H; left; congruence|].
  destruct (num_gt age n120); [intros H; right; congruence | discriminate].
Qed.

(** C9. Every error the constructors of [src/errors.ts] build has the name
    of its class and a message made of the prefix of its kind followed by the
    constructor's argument. So the message of a Failure of a validator is the
    prefixed text: an email without an at sign fails with the message
    "Email validation failed: Missing @ symbol", which is not the bare
    "Missing @ symbol". *)
Theorem domain_errors_named_and_prefixed :
  (forall (c : ErrorClass) (arg : jsstring),
     Error.class_of (construct c arg) = c /\
     Error.name (construct c arg) = class_name c /\
     Error.message (construct c arg) = kind_prefix c ++ arg) /\
  (forall email e, validateEmail email = err e ->
     Error.name e = lit "EmailValidationError" /\
     (Error.message e = lit "Email validation failed: Missing @ symbol" \/
      Error.message e = lit "Email validation failed: Missing domain")) /\
  (forall password e, validatePassword_NeverThrow password = err e ->
     Error.name e = lit "PasswordValidationError" /\
     (Error.message e = lit "Password validation failed: Too short" \/
      Error.message e = lit "Password validation failed: Missing uppercase" \/
      Error.message e = lit "Password validation failed: Missing number")) /\
  (forall age e, validateAge_NeverThrow age = err e ->
     Error.name e = lit "AgeValidationError" /\
     (Error.message e = lit "Age validation failed: Must be 13 or older" \/
      Error.message e = lit "Age validation failed: Invalid age")) /\
  (forall email e, value_of (findUserByEmail email) = err e ->
     Error.name e = lit "DuplicateEmailError" /\
     Error.message e = lit "Email already registered: " ++ email) /\
  (forall email, ~ In at_sign email ->
     exists e, validateEmail email = err e /\
       Error.message e = lit "Email validation failed: Missing @ symbol" /\
       Error.message e <> lit "Missing @ symbol").
Proof.
  split; [|split; [|split; [|split; [|split]]]].
  - intros c arg. destruct c; repeat split; reflexivity.
  - intros email e H.
    destruct (validateEmail_err_cases email e H) as [[_ He]|[_ [_ He]]];
      subst e; split; auto.
  - intros password e H.
    destruct (validatePassword_err_cases password e H) as [He|[He|He]];
      subst e; split; auto.
  - intros age e H.
    destruct (validateAge_err_cases age e H) as [He|He]; subst e; split; auto.
  - intros email e. unfold findUserByEmail, checkEmailExists, value_of.
    unfold bind, await_timeout, emit, ret; cbn [fst snd].
    destruct (includes email (lit "existing")); [|discriminate].
    intros H. inversion H. split; reflexivity.
  - intros email Hat.
    exists (EmailValidationError (lit "Missing @ symbol")).
    split; [exact (validateEmail_missing_at email Hat)|].
    split; [reflexivity | discriminate].
Qed.

(** *** The two password validators *)

(** C10. [validatePassword_Collect] succeeds on every password of at least
    8 code units and fails with the issue on field "password" with message
    "Too short" on every shorter one; it looks at nothing else. So a password
    of 8 or more code units without a letter A-Z passes it while
    [validatePassword_NeverThrow] rejects it, "abcdefgh" for one. *)
Theorem validatePassword_Collect_length_only :
  (forall password : jsstring, 8 <= List.length password ->
     validatePassword_Collect password = ok password) /\
  (forall password : jsstring, List.length password < 8 ->
     validatePassword_Collect password
     = err (ValidationIssue.mk (lit "password") (lit "Too short"))) /\
  (forall password : jsstring, 8 <= List.length password ->
     ~ has_uppercase password ->
     validatePassword_Collect password = ok password /\
     validatePassword_NeverThrow password
     = err (PasswordValidationError (lit "Missing uppercase"))) /\
  (exists password : jsstring,
     isOk (validatePassword_Collect password) = true /\
     isErr (validatePassword_NeverThrow password) = true).
Proof.
  assert (Hge : forall password : jsstring, 8 <= List.length password ->
                validatePassword_Collect password = ok password).
  { intros password H. unfold validatePassword_Collect.
    apply Nat.ltb_ge in H. now rewrite H. }
  split; [exact Hge|]. split; [|split].
  - intros password H. unfold validatePassword_Collect.
    apply Nat.ltb_lt in H. now rewrite H.
  - intros password Hlen Hup. split; [exact (Hge _ Hlen)|].
    exact (validatePassword_missing_uppercase password Hlen Hup).
  - exists (lit "abcdefgh"). split; reflexivity.
Qed.

End Properties.

(** ** The properties at sample inputs

    The samples use [asciiToLowerCase] for the engine's [toLowerCase]: the
    two agree on the ASCII text of the samples. *)

Lemma asciiToLowerCase_lowercases_ascii : lowercases_ascii asciiToLowerCase.
Proof. intros s _. reflexivity. Defined.

Ltac by_includes :=
  first [ apply includes_code_unit; vm_compute; reflexivity
        | let H := fresh in
          intros H; apply includes_code_unit in H; vm_compute in H;
          discriminate H ].

Ltac by_test :=
  first [ apply test_A_Z_spec; vm_compute; reflexivity
        | apply test_0_9_spec; vm_compute; reflexivity
        | let H := fresh in
          intros H; apply test_A_Z_spec in H; vm_compute in H; discriminate H
        | let H := fresh in
          intros H; apply test_0_9_spec in H; vm_compute in H; discriminate H ].

Lemma n13_is_13 : n13 = of_Z 13 /\ n120 = of_Z 120.
Proof. split; reflexivity. Qed.

(** On the integers from 0 to 199 the two comparisons of [validateAge]
    agree with the order of the integers. *)
Lemma age_comparisons_on_integers :
  forallb
    (fun z => Bool.eqb (num_lt (of_Z z) n13) (z <? 13)%Z
              && Bool.eqb (num_gt (of_Z z) n120) (120 <? z)%Z)
    (List.map Z.of_nat (seq 0 200)) = true.
Proof. vm_compute. reflexivity. Qed.

(** NaN compares false with everything, so it passes both tests. *)
Lemma validateAge_NeverThrow_NaN : validateAge_NeverThrow NaN = ok NaN.
Proof. reflexivity. Qed.

Lemma createUserPayload_spec_witness :
  lowercases_ascii asciiToLowerCase /\
  value_of (createUserPayload asciiToLowerCase (lit "Test@Example.COM")
              (lit "SecurePass123") (of_Z 30))
  = ok (UserPayload.mk (lit "test@example.com") (lit "SecurePass123")
          (of_Z 30)) /\
  validateEmail_NeverThrow asciiToLowerCase (lit "bademail")
  = err (EmailValidationError (lit "Missing @ symbol")) /\
  value_of (createUserPayload asciiToLowerCase (lit "bademail") (lit "short")
              (of_Z 5))
  = err (EmailValidationError (lit "Missing @ symbol")).
Proof.
  pose proof (createUserPayload_spec asciiToLowerCase (lit "Test@Example.COM")
                (lit "SecurePass123") (of_Z 30)) as Hgood.
  pose proof (createUserPayload_spec asciiToLowerCase (lit "bademail")
                (lit "short") (of_Z 5)) as Hbad.
  cbv zeta in Hgood, Hbad.
  destruct Hgood as [_ [_ [_ [_ [Hgood _]]]]].
  destruct Hbad as [_ [Hbad _]].
  split; [exact asciiToLowerCase_lowercases_ascii|].
  split; [exact (Hgood asciiToLowerCase_lowercases_ascii)|].
  split; [reflexivity|].
  apply Hbad. reflexivity.
Defined.

Lemma validateEmail_NeverThrow_cases_witness :
  (~ In at_sign (lit "bademail") /\
   validateEmail_NeverThrow asciiToLowerCase (lit "bademail")
   = err (EmailValidationError (lit "Missing @ symbol"))) /\
  (In at_sign (lit "a@nodomain") /\ ~ In full_stop (lit "a@nodomain") /\
   validateEmail_NeverThrow asciiToLowerCase (lit "a@nodomain")
   = err (EmailValidationError (lit "Missing domain"))) /\
  (In at_sign (lit " Test@Example.COM ") /\
   In full_stop (lit " Test@Example.COM ") /\
   validateEmail_NeverThrow asciiToLowerCase (lit " Test@Example.COM ")
   = ok (lit "test@example.com")).
Proof.
  assert (H1 : ~ In at_sign (lit "bademail")) by by_includes.
  assert (H2 : In at_sign (lit "a@nodomain")) by by_includes.
  assert (H3 : ~ In full_stop (lit "a@nodomain")) by by_includes.
  assert (H4 : In at_sign (lit " Test@Example.COM ")) by by_includes.
  assert (H5 : In full_stop (lit " Test@Example.COM ")) by by_includes.
  split; [split; [exact H1|]|split; [split; [exact H2|split; [exact H3|]]|
          split; [exact H4|split; [exact H5|]]]].
  - exact (proj1 (validateEmail_NeverThrow_cases asciiToLowerCase
                    (lit "bademail")) H1).
  - exact (proj1 (proj2 (validateEmail_NeverThrow_cases asciiToLowerCase
                           (lit "a@nodomain"))) H2 H3).
  - exact (proj2 (proj2 (validateEmail_NeverThrow_cases asciiToLowerCase
                           (lit " Test@Example.COM "))) H4 H5).
Defined.

Lemma validatePassword_NeverThrow_cases_witness :
  (List.length (lit "short") < 8 /\
   validatePassword_NeverThrow (lit "short")
   = err (PasswordValidationError (lit "Too short"))) /\
  (8 <= List.length (lit "password123") /\ ~ has_uppercase (lit "password123") /\
   validatePassword_NeverThrow (lit "password123")
   = err (PasswordValidationError (lit "Missing uppercase"))) /\
  (8 <= List.length (lit "Password") /\ has_uppercase (lit "Password") /\
   ~ has_digit (lit "Password") /\
   validatePassword_NeverThrow (lit "Password")
   = err (PasswordValidationError (lit "Missing number"))) /\
  (8 <= List.length (lit "SecurePass123") /\
   has_uppercase (lit "SecurePass123") /\ has_digit (lit "SecurePass123") /\
   validatePassword_NeverThrow (lit "SecurePass123")
   = ok (lit "SecurePass123")).
Proof.
  assert (L1 : List.length (lit "short") < 8) by (simpl; lia).
  assert (L2 : 8 <= List.length (lit "password123")) by (simpl; lia).
  assert (L3 : 8 <= List.length (lit "Password")) by (simpl; lia).
  assert (L4 : 8 <= List.length (lit "SecurePass123")) by (simpl; lia).
  assert (U2 : ~ has_uppercase (lit "password123")) by by_test.
  assert (U3 : has_uppercase (lit "Password")) by by_test.
  assert (U4 : has_uppercase (lit "SecurePass123")) by by_test.
  assert (D3 : ~ has_digit (lit "Password")) by by_test.
  assert (D4 : has_digit (lit "SecurePass123")) by by_test.
  split; [split; [exact L1|]
         |split; [split; [exact L2|split; [exact U2|]]
         |split; [split; [exact L3|split; [exact U3|split; [exact D3|]]]
                 |split; [exact L4|split; [exact U4|split; [exact D4|]]]]]].
  - exact (proj1 (validatePassword_NeverThrow_cases (lit "short")) L1).
  - exact (proj1 (proj2 (validatePassword_NeverThrow_cases
                           (lit "password123"))) L2 U2).
  - exact (proj1 (proj2 (proj2 (validatePassword_NeverThrow_cases
                                  (lit "Password")))) L3 U3 D3).
  - exact (proj2 (proj2 (proj2 (validatePassword_NeverThrow_cases
                                  (lit "SecurePass123")))) L4 U4 D4).
Defined.

Lemma validateAge_NeverThrow_cases_witness :
  (num_lt (of_Z 5) n13 = true /\
   validateAge_NeverThrow (of_Z 5)
   = err (AgeValidationError (lit "Must be 13 or older"))) /\
  (num_gt (of_Z 130) n120 = true /\
   validateAge_NeverThrow (of_Z 130)
   = err (AgeValidationError (lit "Invalid age"))) /\
  (num_le n13 (of_Z 30) = true /\ num_le (of_Z 30) n120 = true /\
   validateAge_NeverThrow (of_Z 30) = ok (of_Z 30)).
Proof.
  assert (H1 : num_lt (of_Z 5) n13 = true) by reflexivity.
  assert (H2 : num_gt (of_Z 130) n120 = true) by reflexivity.
  assert (H3 : num_le n13 (of_Z 30) = true) by reflexivity.
  assert (H4 : num_le (of_Z 30) n120 = true) by reflexivity.
  split; [split; [exact H1|]
         |split; [split; [exact H2|]|split; [exact H3|split; [exact H4|]]]].
  - exact (proj1 (validateAge_NeverThrow_cases (of_Z 5)) H1).
  - exact (proj1 (proj2 (validateAge_NeverThrow_cases (of_Z 130))) H2).
  - exact (proj2 (proj2 (validateAge_NeverThrow_cases (of_Z 30))) H3 H4).
Defined.

Lemma andThen_short_circuit_witness :
  validateEmail_NeverThrow asciiToLowerCase (lit "bademail")
  = err (EmailValidationError (lit "Missing @ symbol")) /\
  value_of (createUserPayload asciiToLowerCase (lit "bademail")
              (lit "SecurePass123") (of_Z 30))
  = err (EmailValidationError (lit "Missing @ symbol")).
Proof.
  assert (H : validateEmail_NeverThrow asciiToLowerCase (lit "bademail")
              = err (EmailValidationError (lit "Missing @ symbol")))
    by reflexivity.
  split; [exact H|].
  exact (proj2 (proj2 (proj2 (andThen_short_circuit asciiToLowerCase)))
           (lit "bademail") (lit "SecurePass123") (of_Z 30) _ H).
Defined.

Lemma validateAll_Collect_spec_witness :
  (isErr (validateEmail_Collect asciiToLowerCase (lit "bad")) = true /\
   isErr (validatePassword_Collect (lit "short")) = true /\
   value_of (validateAll_Collect asciiToLowerCase (lit "bad") (lit "short"))
   = err [ValidationIssue.mk (lit "email") (lit "Missing @ symbol");
          ValidationIssue.mk (lit "password") (lit "Too short")]) /\
  (isErr (validatePassword_Collect (lit "short")) = true /\
   value_of (validateAll_Collect asciiToLowerCase (lit "a@b.com") (lit "short"))
   = err [ValidationIssue.mk (lit "password") (lit "Too short")]) /\
  (isOk (validateEmail_Collect asciiToLowerCase (lit "a@b.com")) = true /\
   isOk (validatePassword_Collect (lit "LongPass1")) = true /\
   value_of (validateAll_Collect asciiToLowerCase (lit "a@b.com")
               (lit "LongPass1"))
   = ok (Credentials.mk (lit "a@b.com") (lit "LongPass1"))).
Proof.
  assert (E1 : isErr (validateEmail_Collect asciiToLowerCase (lit "bad")) = true)
    by reflexivity.
  assert (P1 : isErr (validatePassword_Collect (lit "short")) = true)
    by reflexivity.
  assert (E3 : isOk (validateEmail_Collect asciiToLowerCase (lit "a@b.com"))
               = true) by reflexivity.
  assert (P3 : isOk (validatePassword_Collect (lit "LongPass1")) = true)
    by reflexivity.
  split; [split; [exact E1|split; [exact P1|]]
         |split; [split; [exact P1|]|split; [exact E3|split; [exact P3|]]]].
  - exact (proj1 (validateAll_Collect_spec asciiToLowerCase (lit "bad")
                    (lit "short")) (or_introl E1)).
  - exact (proj1 (validateAll_Collect_spec asciiToLowerCase (lit "a@b.com")
                    (lit "short")) (or_intror P1)).
  - exact (proj1 (proj2 (proj2 (validateAll_Collect_spec asciiToLowerCase
                                  (lit "a@b.com") (lit "LongPass1")))) E3 P3).
Defined.

Lemma validateWithFallback_spec_witness :
  (~ In at_sign (lit "no-at-sign") /\
   value_of (validateWithFallback asciiToLowerCase (lit "no-at-sign"))
   = ok (lit "user@default.com")) /\
  (validateEmail_NeverThrow asciiToLowerCase (lit "a@nodomain")
   = err (EmailValidationError (lit "Missing domain")) /\
   includes (Error.message (EmailValidationError (lit "Missing domain")))
     (lit "Missing @") = false /\
   value_of (validateWithFallback asciiToLowerCase (lit "a@nodomain"))
   = err (EmailValidationError (lit "Missing domain"))) /\
  (validateEmail_NeverThrow asciiToLowerCase (lit "Test@Example.COM")
   = ok (lit "test@example.com") /\
   value_of (validateWithFallback asciiToLowerCase (lit "Test@Example.COM"))
   = ok (lit "test@example.com")).
Proof.
  assert (H1 : ~ In at_sign (lit "no-at-sign")) by by_includes.
  assert (H2 : validateEmail_NeverThrow asciiToLowerCase (lit "a@nodomain")
               = err (EmailValidationError (lit "Missing domain")))
    by reflexivity.
  assert (H3 : includes
                 (Error.message (EmailValidationError (lit "Missing domain")))
                 (lit "Missing @") = false) by reflexivity.
  assert (H4 : validateEmail_NeverThrow asciiToLowerCase
                 (lit "Test@Example.COM") = ok (lit "test@example.com"))
    by reflexivity.
  split; [split; [exact H1|]
         |split; [split; [exact H2|split; [exact H3|]]|split; [exact H4|]]].
  - exact (proj1 (proj2 (proj2 (proj2
             (validateWithFallback_spec asciiToLowerCase (lit "no-at-sign")))))
             H1).
  - exact (proj1 (proj2
             (validateWithFallback_spec asciiToLowerCase (lit "a@nodomain")))
             _ H2 H3).
  - exact (proj1 (proj2 (proj2
             (validateWithFallback_spec asciiToLowerCase
                (lit "Test@Example.COM")))) _ H4).
Defined.

(** C6 as stated fails: on the address "user@default.com" itself the
    validation succeeds, no error is produced, and the result is the Success
    "user@default.com" all the same. *)
Lemma validateWithFallback_default_without_failure :
  value_of (validateWithFallback asciiToLowerCase (lit "user@default.com"))
  = ok (lit "user@default.com") /\
  validateEmail_NeverThrow asciiToLowerCase (lit "user@default.com")
  = ok (lit "user@default.com") /\
  ~ (exists e : Error.t,
       validateEmail_NeverThrow asciiToLowerCase (lit "user@default.com")
       = err e /\
       includes (Error.message e) (lit "Missing @") = true) /\
  ~ (forall toLowerCase : jsstring -> jsstring,
       lowercases_ascii toLowerCase ->
       forall email : jsstring,
         value_of (validateWithFallback toLowerCase email)
         = ok (lit "user@default.com") <->
         (exists e : Error.t,
            validateEmail_NeverThrow toLowerCase email = err e /\
            includes (Error.message e) (lit "Missing @") = true)).
Proof.
  assert (Hno : ~ (exists e : Error.t,
                     validateEmail_NeverThrow asciiToLowerCase
                       (lit "user@default.com") = err e /\
                     includes (Error.message e) (lit "Missing @") = true)).
  { intros [e [H _]]. vm_compute in H. discriminate H. }
  split; [reflexivity|]. split; [reflexivity|]. split; [exact Hno|].
  intros Hclaim.
  destruct (Hclaim asciiToLowerCase asciiToLowerCase_lowercases_ascii
              (lit "user@default.com")) as [Honly _].
  apply Hno, Honly. vm_compute. reflexivity.
Qed.

Lemma registerUser_NeverThrow_spec_witness :
  (value_of (createUserPayload asciiToLowerCase (lit "bademail") (lit "short")
               (of_Z 5))
   = err (EmailValidationError (lit "Missing @ symbol")) /\
   lookup_invoked
     (trace_of (registerUser_NeverThrow asciiToLowerCase (lit "bademail")
                  (lit "short") (of_Z 5))) = false) /\
  (value_of (checkEmailExists (lit "existing@example.com")) = true /\
   trace_of (registerUser_NeverThrow asciiToLowerCase
               (lit "Existing@Example.com") (lit "SecurePass123") (of_Z 30))
   = [ConsoleLog [VString (nl "--- 4.4: Async with ResultAsync ---")];
      ConsoleLog [VString (nl "--- 4.3: Chaining with andThen() ---")];
      SetTimeout 10;
      log_failed (DuplicateEmailError (lit "existing@example.com"))]) /\
  (value_of (checkEmailExists (lit "new@example.com")) = false /\
   trace_of (registerUser_NeverThrow asciiToLowerCase (lit "new@example.com")
               (lit "SecurePass123") (of_Z 30))
   = [ConsoleLog [VString (nl "--- 4.4: Async with ResultAsync ---")];
      ConsoleLog [VString (nl "--- 4.3: Chaining with andThen() ---")];
      SetTimeout 10]
     ++ log_registered
          (UserPayload.mk (lit "new@example.com") (lit "SecurePass123")
             (of_Z 30))).
Proof.
  assert (H1 : value_of (createUserPayload asciiToLowerCase (lit "bademail")
                           (lit "short") (of_Z 5))
               = err (EmailValidationError (lit "Missing @ symbol")))
    by reflexivity.
  assert (H2 : value_of (createUserPayload asciiToLowerCase
                           (lit "Existing@Example.com") (lit "SecurePass123")
                           (of_Z 30))
               = ok (UserPayload.mk (lit "existing@example.com")
                       (lit "SecurePass123") (of_Z 30)))
    by reflexivity.
  assert (H3 : value_of (checkEmailExists (lit "existing@example.com")) = true)
    by reflexivity.
  assert (H4 : value_of (createUserPayload asciiToLowerCase
                           (lit "new@example.com") (lit "SecurePass123")
                           (of_Z 30))
               = ok (UserPayload.mk (lit "new@example.com")
                       (lit "SecurePass123") (of_Z 30)))
    by reflexivity.
  assert (H5 : value_of (checkEmailExists (lit "new@example.com")) = false)
    by reflexivity.
  split; [split; [exact H1|]|split; [split; [exact H3|]|split; [exact H5|]]].
  - exact (proj1 (proj1 (registerUser_NeverThrow_spec asciiToLowerCase
                           (lit "bademail") (lit "short") (of_Z 5)) _ H1)).
  - exact (proj2 (proj1 (proj2 (registerUser_NeverThrow_spec asciiToLowerCase
                                  (lit "Existing@Example.com")
                                  (lit "SecurePass123") (of_Z 30))) _ H2 H3)).
  - exact (proj2 (proj2 (proj2 (registerUser_NeverThrow_spec asciiToLowerCase
                                  (lit "new@example.com")
                                  (lit "SecurePass123") (of_Z 30))) _ H4 H5)).
Defined.

Lemma domain_errors_named_and_prefixed_witness :
  ~ In at_sign (lit "bademail") /\
  validateEmail_NeverThrow asciiToLowerCase (lit "bademail")
  = err (EmailValidationError (lit "Missing @ symbol")) /\
  Error.name (EmailValidationError (lit "Missing @ symbol"))
  = lit "EmailValidationError" /\
  (Error.message (EmailValidationError (lit "Missing @ symbol"))
   = lit "Email validation failed: Missing @ symbol" \/
   Error.message (EmailValidationError (lit "Missing @ symbol"))
   = lit "Email validation failed: Missing domain").
Proof.
  assert (H1 : ~ In at_sign (lit "bademail")) by by_includes.
  assert (H2 : validateEmail_NeverThrow asciiToLowerCase (lit "bademail")
               = err (EmailValidationError (lit "Missing @ symbol")))
    by reflexivity.
  split; [exact H1|]. split; [exact H2|].
  exact (proj1 (proj2 (domain_errors_named_and_prefixed asciiToLowerCase))
           (lit "bademail") _ H2).
Defined.

Lemma validatePassword_Collect_length_only_witness :
  (8 <= List.length (lit "abcdefgh") /\ ~ has_uppercase (lit "abcdefgh") /\
   validatePassword_Collect (lit "abcdefgh") = ok (lit "abcdefgh") /\
   validatePassword_NeverThrow (lit "abcdefgh")
   = err (PasswordValidationError (lit "Missing uppercase"))) /\
  (List.length (lit "short") < 8 /\
   validatePassword_Collect (lit "short")
   = err (ValidationIssue.mk (lit "password") (lit "Too short"))).
Proof.
  assert (L1 : 8 <= List.length (lit "abcdefgh")) by (simpl; lia).
  assert (U1 : ~ has_uppercase (lit "abcdefgh")) by by_test.
  assert (L2 : List.length (lit "short") < 8) by (simpl; lia).
  split; [split; [exact L1|split; [exact U1|]]|split; [exact L2|]].
  - exact (proj1 (proj2 (proj2 validatePassword_Collect_length_only))
             (lit "abcdefgh") L1 U1).
  - exact (proj1 (proj2 validatePassword_Collect_length_only)
             (lit "short") L2).
Defined.

(** ** Further properties *)

(** *** [trim] and [toLowerCase] on ASCII text *)

Lemma trimStart_head (s : jsstring) (c : code_unit) (rest : jsstring) :
  trimStart s = c :: rest -> isWhiteSpace c = false.
Proof.
  induction s as [|a s IH]; simpl; [discriminate|].
  destruct (isWhiteSpace a) eqn:Ha; [exact IH|].
  intros H. inversion H; subst. exact Ha.
Qed.

Lemma trimStart_decomp (s : jsstring) :
  exists ws, s = ws ++ trimStart s /\ forallb isWhiteSpace ws = true.
Proof.
  induction s as [|a s [ws [Hs Hws]]]; simpl.
  - exists []. split; reflexivity.
  - destruct (isWhiteSpace a) eqn:Ha.
    + exists (a :: ws). simpl. rewrite Ha, Hws. split; [congruence | reflexivity].
    + exists []. split; reflexivity.
Qed.

Lemma trimStart_fixed (s : jsstring) :
  (forall c rest, s = c :: rest -> isWhiteSpace c = false) -> trimStart s = s.
Proof.
  destruct s as [|a s]; simpl; [reflexivity|].
  intros H. now rewrite (H a s eq_refl).
Qed.

Lemma trimEnd_decomp (s : jsstring) :
  exists ws, s = trimEnd s ++ ws /\ forallb isWhiteSpace ws = true.
Proof.
  unfold trimEnd.
  destruct (trimStart_decomp (rev s)) as [ws [Hs Hws]].
  exists (rev ws). split.
  - rewrite <- rev_app_distr, <- Hs. symmetry. apply rev_involutive.
  - rewrite forallb_forall in *. intros x Hx. apply Hws.
    now apply in_rev in Hx.
Qed.

Lemma trimEnd_last (s front : jsstring) (c : code_unit) :
  trimEnd s = front ++ [c] -> isWhiteSpace c = false.
Proof.
  unfold trimEnd. intros H.
  apply (f_equal (@rev code_unit)) in H.
  rewrite rev_involutive, rev_app_distr in H. simpl in H.
  exact (trimStart_head _ _ _ H).
Qed.

Lemma trimEnd_fixed (s : jsstring) :
  (forall front c, s = front ++ [c] -> isWhiteSpace c = false) ->
  trimEnd s = s.
Proof.
  intros H. unfold trimEnd.
  rewrite trimStart_fixed; [apply rev_involutive|].
  intros c rest Hrev. apply (H (rev rest) c).
  rewrite <- (rev_involutive s), Hrev. reflexivity.
Qed.

Lemma trim_head (s : jsstring) (c : code_unit) (rest : jsstring) :
  trim s = c :: rest -> isWhiteSpace c = false.
Proof.
  unfold trim. intros H.
  destruct (trimEnd_decomp (trimStart s)) as [ws [Hs _]].
  rewrite H in Hs. simpl in Hs. exact (trimStart_head _ _ _ Hs).
Qed.

Lemma trim_last (s front : jsstring) (c : code_unit) :
  trim s = front ++ [c] -> isWhiteSpace c = false.
Proof. unfold trim. apply trimEnd_last. Qed.

Lemma trim_idempotent (s : jsstring) : trim (trim s) = trim s.
Proof.
  unfold trim at 1.
  rewrite (trimStart_fixed (trim s)) by (intros c rest; apply trim_head).
  apply trimEnd_fixed. intros front c. apply trim_last.
Qed.

Lemma trim_decomp (s : jsstring) :
  exists ws1 ws2, s = ws1 ++ trim s ++ ws2 /\
    forallb isWhiteSpace ws1 = true /\ forallb isWhiteSpace ws2 = true.
Proof.
  destruct (trimStart_decomp s) as [ws1 [H1 Hws1]].
  destruct (trimEnd_decomp (trimStart s)) as [ws2 [H2 Hws2]].
  exists ws1, ws2. unfold trim. rewrite <- H2. auto.
Qed.

Lemma In_trim (s : jsstring) (c : code_unit) :
  In c s -> isWhiteSpace c = false -> In c (trim s).
Proof.
  intros Hin Hc.
  destruct (trim_decomp s) as [ws1 [ws2 [Hs [H1 H2]]]].
  rewrite Hs in Hin. rewrite forallb_forall in H1, H2.
  apply in_app_or in Hin. destruct Hin as [Hin|Hin].
  - apply H1 in Hin. congruence.
  - apply in_app_or in Hin. destruct Hin as [Hin|Hin]; [exact Hin|].
    apply H2 in Hin. congruence.
Qed.

Lemma In_trim_inv (s : jsstring) (c : code_unit) : In c (trim s) -> In c s.
Proof.
  intros Hin. destruct (trim_decomp s) as [ws1 [ws2 [Hs _]]].
  rewrite Hs. apply in_or_app. right. apply in_or_app. now left.
Qed.

Lemma ascii_lower_not_A_Z (c : code_unit) : in_A_Z (ascii_lower c) = false.
Proof.
  unfold ascii_lower. destruct (in_A_Z c) eqn:Hc; [|exact Hc].
  unfold in_A_Z in *. apply andb_true_iff in Hc. destruct Hc as [H1 H2].
  apply N.leb_le in H1. apply N.leb_le in H2.
  apply andb_false_iff. right. apply N.leb_gt. lia.
Qed.

Lemma ascii_lower_fixed (c : code_unit) :
  in_A_Z c = false -> ascii_lower c = c.
Proof. unfold ascii_lower. now intros ->. Qed.

Lemma ascii_lower_ascii (c : code_unit) :
  (c <? 128)%N = true -> (ascii_lower c <? 128)%N = true.
Proof.
  unfold ascii_lower. destruct (in_A_Z c) eqn:Hc; [|auto].
  unfold in_A_Z in Hc. apply andb_true_iff in Hc. destruct Hc as [H1 H2].
  apply N.leb_le in H2. intros _. apply N.ltb_lt. lia.
Qed.

(** The normalized form of an ASCII string: no letter A-Z, still ASCII,
    and left alone by a second normalization. *)
Lemma normalized_ascii (s : jsstring) :
  all_ascii s = true ->
  let v := trim (asciiToLowerCase s) in
  test_A_Z v = false /\ all_ascii v = true /\ trim (asciiToLowerCase v) = v.
Proof.
  intros Hs v.
  assert (Hv : forall c, In c v -> exists y, In y s /\ c = ascii_lower y).
  { intros c Hc. apply In_trim_inv in Hc. unfold asciiToLowerCase in Hc.
    apply in_map_iff in Hc. destruct Hc as [y [Hy Hin]]. exists y. auto. }
  assert (Hup : forall c, In c v -> in_A_Z c = false).
  { intros c Hc. destruct (Hv c Hc) as [y [_ ->]]. apply ascii_lower_not_A_Z. }
  split; [|split].
  - unfold test_A_Z. apply not_true_false. intros H.
    apply existsb_exists in H. destruct H as [c [Hc Hc']].
    rewrite (Hup c Hc) in Hc'. discriminate.
  - unfold all_ascii in *. rewrite forallb_forall in *. intros c Hc.
    destruct (Hv c Hc) as [y [Hy ->]]. apply ascii_lower_ascii. now apply Hs.
  - replace (asciiToLowerCase v) with v; [apply trim_idempotent|].
    unfold asciiToLowerCase. rewrite <- (map_id v) at 1.
    apply map_ext_in. intros c Hc. symmetry. apply ascii_lower_fixed. auto.
Qed.

(** *** Numbers, continued *)

Lemma SFcompare_defined (a b : spec_float) :
  a <> S754_nan -> b <> S754_nan -> exists c, SFcompare a b = Some c.
Proof.
  intros Ha Hb.
  destruct a as [sa|sa| |sa ma ea], b as [sb|sb| |sb mb eb];
    try congruence; simpl; eexists; reflexivity.
Qed.

Lemma num_not_lt_le (a b : number) :
  a <> S754_nan -> b <> S754_nan -> num_lt a b = false -> num_le b a = true.
Proof.
  intros Ha Hb. unfold num_lt, num_le, SFltb, SFleb.
  rewrite (SFcompare_antisym a b).
  destruct (SFcompare_defined a b Ha Hb) as [c ->].
  destruct c; simpl; congruence.
Qed.

Section FurtherProperties.

Variable toLowerCase : jsstring -> jsstring.

Abbreviation validateEmail := (validateEmail_NeverThrow toLowerCase).

(** *** What the validators accept *)

Lemma validateEmail_ok_iff (email v : jsstring) :
  validateEmail email = ok v <->
  In at_sign email /\ In full_stop email /\ v = trim (toLowerCase email).
Proof.
  rewrite <- includes_at_sign, <- includes_full_stop.
  unfold validateEmail_NeverThrow.
  destruct (includes email (lit "@")); simpl;
    [|split; [discriminate | intros [H _]; discriminate]].
  destruct (includes email (lit ".")); simpl;
    [|split; [discriminate | intros [_ [H _]]; discriminate]].
  split.
  - intros H. inversion H. auto.
  - intros [_ [_ ->]]. reflexivity.
Qed.

Lemma validatePassword_ok_iff (password : jsstring) :
  isOk (validatePassword_NeverThrow password) = true <->
  8 <= List.length password /\ has_uppercase password /\ has_digit password.
Proof.
  rewrite <- test_A_Z_spec, <- test_0_9_spec.
  unfold validatePassword_NeverThrow.
  destruct (Nat.ltb_spec (List.length password) 8) as [Hlt|Hge]; simpl.
  - split; [discriminate | intros [H _]; lia].
  - destruct (test_A_Z password); simpl;
      [|split; [discriminate | intros [_ [H _]]; discriminate]].
    destruct (test_0_9 password); simpl;
      [|split; [discriminate | intros [_ [_ H]]; discriminate]].
    split; auto.
Qed.

Lemma validateAge_ok_iff (age : number) :
  isOk (validateAge_NeverThrow age) = true <->
  num_lt age n13 = false /\ num_gt age n120 = false.
Proof.
  unfold validateAge_NeverThrow.
  destruct (num_lt age n13); simpl;
    [split; [discriminate | intros [H _]; discriminate]|].
  destruct (num_gt age n120); simpl;
    [split; [discriminate | intros [_ H]; discriminate]|].
  split; auto.
Qed.

(** X17. [validateAge_NeverThrow] returns its argument as a Success exactly
    when the argument is NaN or lies between 13 and 120, bounds included:
    NaN is below nothing and above nothing, so both tests let it through. *)
Theorem validateAge_accepts_NaN_and_range (age : number) :
  validateAge_NeverThrow age = ok age <->
  age = NaN \/ (num_le n13 age = true /\ num_le age n120 = true).
Proof.
  split.
  - intros H.
    assert (Hok : isOk (validateAge_NeverThrow age) = true) by now rewrite H.
    apply validateAge_ok_iff in Hok. destruct Hok as [Hlo Hhi].
    destruct age as [s|s| |s m e]; [right|right|left; reflexivity|right];
      (split;
       [apply num_not_lt_le; [discriminate|discriminate|exact Hlo]
       |apply num_not_lt_le; [discriminate|discriminate|exact Hhi]]).
  - intros [->|[Hlo Hhi]]; [reflexivity|].
    unfold validateAge_NeverThrow.
    rewrite (num_le_not_lt _ _ Hlo). now rewrite (num_le_not_gt _ _ Hhi).
Qed.

(** X16. [createUserPayload] returns a Success exactly when the email holds
    an at sign and a full stop, the password has at least 8 code units, a
    letter A-Z and a digit 0-9, and the age is neither below 13 nor above
    120. *)
Theorem createUserPayload_accepts_iff
    (email password : jsstring) (age : number) :
  isOk (value_of (createUserPayload toLowerCase email password age)) = true <->
  In at_sign email /\ In full_stop email /\
  8 <= List.length password /\ has_uppercase password /\ has_digit password /\
  num_lt age n13 = false /\ num_gt age n120 = false.
Proof.
  rewrite createUserPayload_value.
  rewrite <- validateAge_ok_iff.
  split.
  - destruct (validateEmail email) as [ve|ee] eqn:He; simpl; [|discriminate].
    destruct (validatePassword_NeverThrow password) as [vp|ep] eqn:Hp; simpl;
      [|discriminate].
    intros Ha. apply validateEmail_ok_iff in He. destruct He as [H1 [H2 _]].
    assert (Hp' : isOk (validatePassword_NeverThrow password) = true)
      by now rewrite Hp.
    apply validatePassword_ok_iff in Hp'. destruct Hp' as [H3 [H4 H5]].
    repeat (split; [assumption|]).
    destruct (validateAge_NeverThrow age); [reflexivity | discriminate].
  - intros [H1 [H2 [H3 [H4 [H5 Ha]]]]].
    rewrite (validateEmail_valid toLowerCase email H1 H2).
    rewrite (validatePassword_valid password H3 H4 H5). simpl.
    destruct (validateAge_NeverThrow age); [reflexivity | discriminate].
Qed.

(** *** The normalized email *)

(** X3. The email a successful validation returns has no white space at
    either end, whatever the engine's case mapping: trimming it again
    changes nothing, and neither its first nor its last code unit is white
    space. *)
Theorem validateEmail_value_is_trimmed (email v : jsstring) :
  validateEmail email = ok v ->
  trim v = v /\
  (forall c rest, v = c :: rest -> isWhiteSpace c = false) /\
  (forall front c, v = front ++ [c] -> isWhiteSpace c = false).
Proof.
  intros H. apply validateEmail_ok_iff in H. destruct H as [_ [_ ->]].
  split; [apply trim_idempotent|]. split.
  - intros c rest. apply trim_head.
  - intros front c. apply trim_last.
Qed.

(** X4. On ASCII input the email a successful validation returns holds no
    letter A-Z, and still holds an at sign and a full stop. *)
Theorem validateEmail_value_lowercase_on_ascii (email v : jsstring) :
  lowercases_ascii toLowerCase -> all_ascii email = true ->
  validateEmail email = ok v ->
  ~ has_uppercase v /\ In at_sign v /\ In full_stop v.
Proof.
  intros Hlow Hascii H. apply validateEmail_ok_iff in H.
  destruct H as [Hat [Hdot ->]]. rewrite (Hlow email Hascii).
  destruct (normalized_ascii email Hascii) as [Hup _].
  split; [|split].
  - rewrite <- test_A_Z_spec. congruence.
  - apply In_trim; [|reflexivity]. unfold asciiToLowerCase.
    apply in_map_iff. exists at_sign. split; [reflexivity | exact Hat].
  - apply In_trim; [|reflexivity]. unfold asciiToLowerCase.
    apply in_map_iff. exists full_stop. split; [reflexivity | exact Hdot].
Qed.

(** X2. On ASCII input validation is idempotent: the email a successful
    validation returns is valid, and validating it returns it unchanged. *)
Theorem validateEmail_idempotent_on_ascii (email v : jsstring) :
  lowercases_ascii toLowerCase -> all_ascii email = true ->
  validateEmail email = ok v -> validateEmail v = ok v.
Proof.
  intros Hlow Hascii H.
  assert (Hv := H). apply validateEmail_ok_iff in Hv.
  destruct Hv as [Hat [Hdot Hv]].
  rewrite (Hlow email Hascii) in Hv.
  destruct (normalized_ascii email Hascii) as [_ [Hascii' Hfix]].
  rewrite <- Hv in Hascii', Hfix.
  apply validateEmail_ok_iff. split; [|split].
  - subst v. apply In_trim; [|reflexivity]. unfold asciiToLowerCase.
    apply in_map_iff. exists at_sign. split; [reflexivity | exact Hat].
  - subst v. apply In_trim; [|reflexivity]. unfold asciiToLowerCase.
    apply in_map_iff. exists full_stop. split; [reflexivity | exact Hdot].
  - rewrite (Hlow v Hascii'). symmetry. exact Hfix.
Qed.

(** *** The composers side by side *)

(** X5. [processUserInput] returns what [createUserPayload] returns, for
    every email, password and age: validating the age before the chain
    starts, as it does, changes nothing. *)
Theorem processUserInput_agrees_with_createUserPayload
    (email password : jsstring) (age : number) :
  value_of (processUserInput toLowerCase email password age)
  = value_of (createUserPayload toLowerCase email password age).
Proof.
  rewrite createUserPayload_value.
  unfold processUserInput, value_of, bind, console_log, emit, ret.
  cbn [fst snd].
  destruct (validateEmail email) as [ve|ee]; [|reflexivity].
  destruct (validatePassword_NeverThrow password) as [vp|ep]; reflexivity.
Qed.

(** X6. What [createUserPayload] accepts, [validateAll_Collect] accepts:
    when the first returns a payload, the second returns the email and the
    password of that payload. *)
Theorem createUserPayload_ok_validateAll_Collect_ok
    (email password : jsstring) (age : number) (payload : UserPayload.t) :
  value_of (createUserPayload toLowerCase email password age) = ok payload ->
  value_of (validateAll_Collect toLowerCase email password)
  = ok (Credentials.mk (UserPayload.email payload)
          (UserPayload.password payload)).
Proof.
  intros H. rewrite createUserPayload_value in H.
  destruct (validateEmail email) as [ve|ee] eqn:He; [|discriminate].
  destruct (validatePassword_NeverThrow password) as [vp|ep] eqn:Hp;
    [|discriminate].
  cbn [andThen map UserPayload.age] in H.
  destruct (validateAge_NeverThrow age); [|discriminate].
  inversion H; subst payload; cbn [UserPayload.email UserPayload.password].
  apply validateEmail_ok_iff in He. destruct He as [Hat [Hdot ->]].
  assert (Hp' : isOk (validatePassword_NeverThrow password) = true)
    by now rewrite Hp.
  apply validatePassword_ok_iff in Hp'. destruct Hp' as [Hlen _].
  apply validatePassword_ok_value in Hp. subst vp.
  unfold validateAll_Collect, value_of, bind, console_log, emit, ret.
  cbn [fst snd].
  unfold validateEmail_Collect, validatePassword_Collect.
  rewrite <- includes_at_sign in Hat. rewrite <- includes_full_stop in Hdot.
  apply Nat.ltb_ge in Hlen. rewrite Hat, Hdot, Hlen. reflexivity.
Qed.

(** X7. The two email validators decide alike: [validateEmail_NeverThrow]
    is [validateEmail_Collect] with the message of each issue given to the
    [EmailValidationError] constructor, and every issue is on the field
    "email". *)
Theorem validateEmail_Collect_matches_NeverThrow (email : jsstring) :
  validateEmail email
  = mapErr (validateEmail_Collect toLowerCase email)
      (fun issue => EmailValidationError (ValidationIssue.message issue)) /\
  match validateEmail_Collect toLowerCase email with
  | err issue => ValidationIssue.field issue = lit "email"
  | ok _ => True
  end.
Proof.
  unfold validateEmail_NeverThrow, validateEmail_Collect.
  destruct (includes email (lit "@")); simpl; [|split; reflexivity].
  destruct (includes email (lit ".")); simpl; split; auto.
Qed.

(** *** Recovery, continued *)

(** X1. [validateWithDefaults] never returns a Failure: it returns the
    validated email, or "default@example.com" when the email is invalid, and
    the validated age, or 25 when the age is invalid; the age it returns is
    always one [validateAge_NeverThrow] accepts. *)
Theorem validateWithDefaults_always_succeeds (email : jsstring) (age : number) :
  exists user : EmailAge.t,
    value_of (validateWithDefaults toLowerCase email age) = ok user /\
    EmailAge.email user
    = unwrapOr (validateEmail email) (lit "default@example.com") /\
    EmailAge.age user = unwrapOr (validateAge_NeverThrow age) (of_Z 25) /\
    validateAge_NeverThrow (EmailAge.age user) = ok (EmailAge.age user).
Proof.
  unfold validateWithDefaults, value_of, bind, console_log, emit, ret.
  destruct (validateEmail email) as [ve|ee]; cbn [fst snd unwrapOr];
    (eexists; split; [reflexivity|]; cbn [EmailAge.email EmailAge.age];
     split; [reflexivity|]; split; [reflexivity|]);
    (destruct (validateAge_NeverThrow age) as [va|ea] eqn:Ha;
     [apply validateAge_ok_value in Ha as Hva; subst va; exact Ha
     |reflexivity]).
Qed.

Lemma validateWithConditionalHandling_value (email : jsstring) :
  value_of (validateWithConditionalHandling toLowerCase email)
  = match validateEmail email with
    | err error =>
        if includes (Error.message error) (lit "domain")
        then ok (lit "user@gmail.com")
        else err error
    | ok value => ok value
    end.
Proof.
  unfold validateWithConditionalHandling.
  destruct (validateEmail email) as [v|e]; [reflexivity|].
  unfold value_of, bind, console_log, emit, ret; cbn [fst snd].
  destruct (includes (Error.message e) (lit "domain")); reflexivity.
Qed.

(** X8. [validateWithConditionalHandling] fails exactly when the email has
    no at sign, and then with the validator's own error; an email with an at
    sign and no full stop gets the Success "user@gmail.com", and a valid
    email its validated form. *)
Theorem validateWithConditionalHandling_cases (email : jsstring) :
  let result := value_of (validateWithConditionalHandling toLowerCase email) in
  (isErr result = true <-> ~ In at_sign email) /\
  (~ In at_sign email ->
     result = err (EmailValidationError (lit "Missing @ symbol"))) /\
  (In at_sign email -> ~ In full_stop email ->
     result = ok (lit "user@gmail.com")) /\
  (In at_sign email -> In full_stop email ->
     result = ok (trim (toLowerCase email))).
Proof.
  cbv zeta. rewrite validateWithConditionalHandling_value.
  assert (H1 : ~ In at_sign email ->
               validateEmail email
               = err (EmailValidationError (lit "Missing @ symbol")))
    by apply validateEmail_missing_at.
  assert (H2 : In at_sign email -> ~ In full_stop email ->
               validateEmail email
               = err (EmailValidationError (lit "Missing domain")))
    by apply validateEmail_missing_domain.
  assert (H3 : In at_sign email -> In full_stop email ->
               validateEmail email = ok (trim (toLowerCase email)))
    by apply validateEmail_valid.
  split; [|split; [|split]].
  - split.
    + intros Herr Hat.
      destruct (in_dec N.eq_dec full_stop email) as [Hdot|Hdot].
      * rewrite (H3 Hat Hdot) in Herr. discriminate.
      * rewrite (H2 Hat Hdot) in Herr. discriminate.
    + intros Hat. rewrite (H1 Hat). reflexivity.
  - intros Hat. rewrite (H1 Hat). reflexivity.
  - intros Hat Hdot. rewrite (H2 Hat Hdot). reflexivity.
  - intros Hat Hdot. rewrite (H3 Hat Hdot). reflexivity.
Qed.

(** X9. The two recoveries share the failures between them: for every
    email at least one of [validateWithFallback] and
    [validateWithConditionalHandling] returns a Success, and both do exactly
    when the email is valid. *)
Theorem recoveries_are_complementary (email : jsstring) :
  let fallback := value_of (validateWithFallback toLowerCase email) in
  let conditional :=
    value_of (validateWithConditionalHandling toLowerCase email) in
  isOk fallback || isOk conditional = true /\
  isOk fallback && isOk conditional = isOk (validateEmail email).
Proof.
  cbv zeta.
  rewrite validateWithFallback_value, validateWithConditionalHandling_value.
  destruct (validateEmail email) as [v|e] eqn:He; [split; reflexivity|].
  destruct (validateEmail_err_cases toLowerCase email e He)
    as [[_ ->]|[_ [_ ->]]]; split; reflexivity.
Qed.

(** X10. [validateAndFormatError] accepts every email that holds an at sign,
    a full stop or not, so it accepts whatever [validateEmail_NeverThrow]
    accepts, with the same value, and more; every email it rejects gets the
    one code "VALIDATION_ERROR" with the instant of the call. *)
Theorem validateAndFormatError_cases (now : Date.t) (email : jsstring) :
  let result := value_of (validateAndFormatError toLowerCase now email) in
  (In at_sign email -> result = ok (trim (toLowerCase email))) /\
  (~ In at_sign email ->
     result = err (ApiError.mk (lit "VALIDATION_ERROR") now)) /\
  (forall v, validateEmail email = ok v -> result = ok v) /\
  (In at_sign email -> ~ In full_stop email ->
     isOk result = true /\ isErr (validateEmail email) = true).
Proof.
  cbv zeta.
  unfold validateAndFormatError, value_of, bind, console_log, emit, ret.
  cbn [fst snd]. unfold validateEmail_ForApi.
  assert (Hyes : In at_sign email ->
                 mapErr
                   (if negb (includes email (lit "@"))
                    then err (EmailValidationError (lit "Missing @ symbol"))
                    else ok (trim (toLowerCase email)))
                   (convertToApiError now)
                 = ok (trim (toLowerCase email))).
  { intros Hat. rewrite <- includes_at_sign in Hat. now rewrite Hat. }
  split; [exact Hyes|]. split; [|split].
  - intros Hat. rewrite <- includes_at_sign in Hat.
    apply not_true_false in Hat. now rewrite Hat.
  - intros v Hv. apply validateEmail_ok_iff in Hv.
    destruct Hv as [Hat [_ ->]]. exact (Hyes Hat).
  - intros Hat Hdot. rewrite (Hyes Hat).
    rewrite (validateEmail_missing_domain toLowerCase email Hat Hdot).
    split; reflexivity.
Qed.

(** *** The error log *)

Lemma validateAndRecord_value
    (now : Date.t) (email : jsstring) (errorLog : list ErrorLogEntry.t) :
  value_of (validateAndRecord toLowerCase now email errorLog)
  = (validateEmail email, errorLog ++ entry_of toLowerCase (now, email)).
Proof.
  unfold validateAndRecord, entry_of, value_of, bind, console_log, emit, ret.
  cbn [fst snd].
  destruct (validateEmail email) as [v|e]; cbn [fst snd];
    [rewrite app_nil_r|]; reflexivity.
Qed.

(** X11. [validateAndRecord] returns the validation result unchanged and
    only ever appends to [errorLog]: after any sequence of calls the log is
    its former content followed by one entry for each invalid email, in call
    order, each with the instant of its call and the validator's error. So
    the log grows by the number of invalid emails. *)
Theorem validateAndRecord_appends
    (calls : list (Date.t * jsstring)) (errorLog : list ErrorLogEntry.t) :
  record_all toLowerCase calls errorLog
  = errorLog ++ flat_map (entry_of toLowerCase) calls /\
  List.length (record_all toLowerCase calls errorLog)
  = List.length errorLog
    + List.length
        (filter (fun call => isErr (validateEmail (snd call))) calls) /\
  (forall now email,
     fst (value_of (validateAndRecord toLowerCase now email errorLog))
     = validateEmail email).
Proof.
  assert (Hall : forall calls errorLog,
             record_all toLowerCase calls errorLog
             = errorLog ++ flat_map (entry_of toLowerCase) calls).
  { clear calls errorLog. intros calls.
    induction calls as [|[now email] calls IH]; intros errorLog; simpl.
    - now rewrite app_nil_r.
    - rewrite validateAndRecord_value. cbn [snd fst].
      rewrite IH, <- app_assoc. reflexivity. }
  split; [apply Hall|]. split.
  - rewrite Hall, length_app. f_equal.
    clear. induction calls as [|[now email] calls IH]; simpl; [reflexivity|].
    rewrite length_app, IH. unfold entry_of. cbn [fst snd].
    destruct (validateEmail email); reflexivity.
  - intros now email. rewrite validateAndRecord_value. reflexivity.
Qed.

(** *** Reporting field by field *)

(** X12. [handleRegistration_NeverThrow] reports on all three fields
    whatever the others do: it writes four lines, and as many of them carry
    the ballot cross as validators fail. No line carries it exactly when
    [createUserPayload] accepts the same input. *)
Theorem handleRegistration_NeverThrow_reports_every_failure
    (email password : jsstring) (age : number) :
  let lines := handleRegistration_NeverThrow toLowerCase email password age in
  List.length lines = 4 /\
  cross_lines lines
  = failed (validateEmail email)
    + failed (validatePassword_NeverThrow password)
    + failed (validateAge_NeverThrow age) /\
  (cross_lines lines = 0 <->
   isOk (value_of (createUserPayload toLowerCase email password age)) = true).
Proof.
  cbv zeta. rewrite createUserPayload_value.
  unfold handleRegistration_NeverThrow.
  destruct (validateEmail email) as [ve|ee];
    destruct (validatePassword_NeverThrow password) as [vp|ep];
    cbn [andThen map UserPayload.age];
    destruct (validateAge_NeverThrow age) as [va|ea];
    (split; [reflexivity|]; split; [reflexivity|]);
    cbn; split; congruence.
Qed.

(** *** The throwing validators *)

Lemma validateEmail_FP1_eq (email : jsstring) :
  validateEmail_FP1 toLowerCase email
  = (match validateEmail email with
     | ok v => Return v
     | err e => Throw e
     end, []).
Proof.
  unfold validateEmail_FP1, validateEmail_NeverThrow, throw, exn_ret.
  destruct (includes email (lit "@")); simpl; [|reflexivity].
  destruct (includes email (lit ".")); reflexivity.
Qed.

Lemma validatePassword_FP1_eq (password : jsstring) :
  validatePassword_FP1 password
  = (match validatePassword_NeverThrow password with
     | ok v => Return v
     | err e => Throw e
     end, []).
Proof.
  unfold validatePassword_FP1, validatePassword_NeverThrow, throw, exn_ret.
  destruct (List.length password <? 8)%nat; [reflexivity|].
  destruct (test_A_Z password); simpl; [|reflexivity].
  destruct (test_0_9 password); reflexivity.
Qed.

Lemma validateAge_FP1_eq (age : number) :
  validateAge_FP1 age
  = (match validateAge_NeverThrow age with
     | ok v => Return v
     | err e => Throw e
     end, []).
Proof.
  unfold validateAge_FP1, validateAge_NeverThrow, throw, exn_ret.
  destruct (num_lt age n13); [reflexivity|].
  destruct (num_gt age n120); reflexivity.
Qed.

(** X13. The throwing validators of [try-catch.ts] and the Result
    validators of [neverthrow.ts] decide alike: each throwing validator
    returns the value its counterpart holds as a Success and throws the error
    its counterpart holds as a Failure, and writes nothing. *)
Theorem throwing_validators_match_Result_validators
    (email password : jsstring) (age : number) :
  (to_result (value_of (validateEmail_FP1 toLowerCase email))
   = validateEmail email /\
   trace_of (validateEmail_FP1 toLowerCase email) = []) /\
  (to_result (value_of (validatePassword_FP1 password))
   = validatePassword_NeverThrow password /\
   trace_of (validatePassword_FP1 password) = []) /\
  (to_result (value_of (validateAge_FP1 age)) = validateAge_NeverThrow age /\
   trace_of (validateAge_FP1 age) = []).
Proof.
  rewrite validateEmail_FP1_eq, validatePassword_FP1_eq, validateAge_FP1_eq.
  unfold value_of, trace_of; cbn [fst snd].
  destruct (validateEmail email), (validatePassword_NeverThrow password),
    (validateAge_NeverThrow age); repeat split.
Qed.

(** X14. [registerUser_TryCatch] never throws. It resolves to the success
    object with the user id "user-123" exactly when [createUserPayload]
    accepts the input and the normalized email does not hold "admin"; for
    every failure it resolves to the same failure object with the text
    "Something failed", after logging the name and the message of the error
    caught: the error [createUserPayload] returns, or the [DatabaseError]. *)
Theorem registerUser_TryCatch_outcome
    (email password : jsstring) (age : number) :
  let attempt := registerUser_TryCatch toLowerCase email password age in
  let header :=
    ConsoleLog [VString (nl "--- PROBLEM 1: Blind Try-Catch ---")] in
  attempt
  = match value_of (createUserPayload toLowerCase email password age) with
    | ok payload =>
        if includes (UserPayload.email payload) (lit "admin")
        then (Return (NotRegistered (lit "Something failed")),
              header :: caught_lines (DatabaseError (lit "Email reserved")))
        else (Return (Registered (lit "user-123")), [header])
    | err error =>
        (Return (NotRegistered (lit "Something failed")),
         header :: caught_lines error)
    end.
Proof.
  cbv zeta. rewrite createUserPayload_value.
  unfold registerUser_TryCatch.
  rewrite validateEmail_FP1_eq, validatePassword_FP1_eq, validateAge_FP1_eq.
  destruct (validateEmail email) as [ve|ee]; [|reflexivity].
  destruct (validatePassword_NeverThrow password) as [vp|ep]; [|reflexivity].
  cbn [andThen map UserPayload.age].
  destruct (validateAge_NeverThrow age) as [va|ea]; [|reflexivity].
  cbn [andThen map UserPayload.email].
  unfold saveUserToDatabase_FP1, exn_bind, try_catch, exn_log, exn_ret, throw.
  cbn [UserPayload.email].
  destruct (includes ve (lit "admin")); reflexivity.
Qed.

(** X15. [registerUser_Nested] never throws and never looks at the age.
    It validates the password only when the email is invalid: for a valid
    email it logs the email and stops, whatever the password; for an invalid
    one it logs the email error and then either the password, in clear, or
    the password error followed by the line of the last handler. *)
Theorem registerUser_Nested_outcome
    (email password : jsstring) (age : number) :
  registerUser_Nested toLowerCase email password age
  = (Return tt,
     ConsoleLog [VString (nl "--- PROBLEM 3: Nested Try-Catch Hell ---")]
     :: match validateEmail email with
        | ok validEmail =>
            [ConsoleLog [VString (lit "Email OK:"); VString validEmail]]
        | err emailError =>
            ConsoleLog [VString (lit "Handle email error:");
                        VString (Error.message emailError)]
            :: match validatePassword_NeverThrow password with
               | ok validPassword =>
                   [ConsoleLog [VString (lit "Password OK:");
                                VString validPassword]]
               | err passwordError =>
                   [ConsoleLog [VString (lit "Handle password error:");
                                VString (Error.message passwordError)];
                    ConsoleLog
                      [VString
                         (lit "Final error handler - still unclear what went wrong")]]
               end
        end).
Proof.
  unfold registerUser_Nested.
  rewrite validateEmail_FP1_eq, validatePassword_FP1_eq.
  destruct (validateEmail email) as [ve|ee] eqn:He; [reflexivity|].
  destruct (validateEmail_err_cases toLowerCase email ee He)
    as [[_ ->]|[_ [_ ->]]];
    (destruct (validatePassword_NeverThrow password) as [vp|ep] eqn:Hp;
     [reflexivity|]);
    destruct (validatePassword_err_cases password ep Hp) as [-> | [-> | ->]];
    reflexivity.
Qed.

(** *** The lookup, continued *)

(** X18. [registerUser_NeverThrow] runs the duplicate-email lookup exactly
    when [createUserPayload] accepts the input, and then once: its trace
    holds one awaited timer in that case and none otherwise. *)
Theorem registerUser_NeverThrow_lookup_once
    (email password : jsstring) (age : number) :
  let trace :=
    trace_of (registerUser_NeverThrow toLowerCase email password age) in
  let accepted :=
    isOk (value_of (createUserPayload toLowerCase email password age)) in
  lookup_invoked trace = accepted /\
  List.length (filter is_timer trace) = (if accepted then 1 else 0).
Proof.
  cbv zeta. rewrite registerUser_NeverThrow_trace.
  destruct (value_of (createUserPayload toLowerCase email password age))
    as [payload|error]; [|split; reflexivity].
  destruct (value_of (checkEmailExists (UserPayload.email payload)));
    split; reflexivity.
Qed.

End FurtherProperties.

(** ** The further properties at sample inputs *)

Lemma validateEmail_value_is_trimmed_witness :
  validateEmail_NeverThrow asciiToLowerCase (lit " Test@Example.COM ")
  = ok (lit "test@example.com") /\
  trim (lit "test@example.com") = lit "test@example.com".
Proof.
  assert (H : validateEmail_NeverThrow asciiToLowerCase
                (lit " Test@Example.COM ") = ok (lit "test@example.com"))
    by reflexivity.
  split; [exact H|].
  exact (proj1 (validateEmail_value_is_trimmed asciiToLowerCase
                  (lit " Test@Example.COM ") (lit "test@example.com") H)).
Defined.

Lemma validateEmail_value_lowercase_on_ascii_witness :
  all_ascii (lit " Test@Example.COM ") = true /\
  validateEmail_NeverThrow asciiToLowerCase (lit " Test@Example.COM ")
  = ok (lit "test@example.com") /\
  ~ has_uppercase (lit "test@example.com") /\
  In at_sign (lit "test@example.com") /\
  In full_stop (lit "test@example.com").
Proof.
  assert (Ha : all_ascii (lit " Test@Example.COM ") = true) by reflexivity.
  assert (H : validateEmail_NeverThrow asciiToLowerCase
                (lit " Test@Example.COM ") = ok (lit "test@example.com"))
    by reflexivity.
  split; [exact Ha|]. split; [exact H|].
  exact (validateEmail_value_lowercase_on_ascii asciiToLowerCase
           (lit " Test@Example.COM ") (lit "test@example.com")
           asciiToLowerCase_lowercases_ascii Ha H).
Defined.

Lemma validateEmail_idempotent_on_ascii_witness :
  all_ascii (lit " Test@Example.COM ") = true /\
  validateEmail_NeverThrow asciiToLowerCase (lit " Test@Example.COM ")
  = ok (lit "test@example.com") /\
  validateEmail_NeverThrow asciiToLowerCase (lit "test@example.com")
  = ok (lit "test@example.com").
Proof.
  assert (Ha : all_ascii (lit " Test@Example.COM ") = true) by reflexivity.
  assert (H : validateEmail_NeverThrow asciiToLowerCase
                (lit " Test@Example.COM ") = ok (lit "test@example.com"))
    by reflexivity.
  split; [exact Ha|]. split; [exact H|].
  exact (validateEmail_idempotent_on_ascii asciiToLowerCase
           (lit " Test@Example.COM ") (lit "test@example.com")
           asciiToLowerCase_lowercases_ascii Ha H).
Defined.

Lemma createUserPayload_ok_validateAll_Collect_ok_witness :
  value_of (createUserPayload asciiToLowerCase (lit "Test@Example.COM")
              (lit "SecurePass123") (of_Z 30))
  = ok (UserPayload.mk (lit "test@example.com") (lit "SecurePass123")
          (of_Z 30)) /\
  value_of (validateAll_Collect asciiToLowerCase (lit "Test@Example.COM")
              (lit "SecurePass123"))
  = ok (Credentials.mk (lit "test@example.com") (lit "SecurePass123")).
Proof.
  assert (H : value_of (createUserPayload asciiToLowerCase
                          (lit "Test@Example.COM") (lit "SecurePass123")
                          (of_Z 30))
              = ok (UserPayload.mk (lit "test@example.com")
                      (lit "SecurePass123") (of_Z 30))) by reflexivity.
  split; [exact H|].
  exact (createUserPayload_ok_validateAll_Collect_ok asciiToLowerCase
           (lit "Test@Example.COM") (lit "SecurePass123") (of_Z 30) _ H).
Defined.

Lemma validateWithConditionalHandling_cases_witness :
  (~ In at_sign (lit "bademail") /\
   value_of (validateWithConditionalHandling asciiToLowerCase (lit "bademail"))
   = err (EmailValidationError (lit "Missing @ symbol"))) /\
  (In at_sign (lit "a@nodomain") /\ ~ In full_stop (lit "a@nodomain") /\
   value_of (validateWithConditionalHandling asciiToLowerCase
               (lit "a@nodomain"))
   = ok (lit "user@gmail.com")) /\
  (In at_sign (lit "User@Example.com") /\
   In full_stop (lit "User@Example.com") /\
   value_of (validateWithConditionalHandling asciiToLowerCase
               (lit "User@Example.com"))
   = ok (lit "user@example.com")).
Proof.
  assert (H1 : ~ In at_sign (lit "bademail")) by by_includes.
  assert (H2 : In at_sign (lit "a@nodomain")) by by_includes.
  assert (H3 : ~ In full_stop (lit "a@nodomain")) by by_includes.
  assert (H4 : In at_sign (lit "User@Example.com")) by by_includes.
  assert (H5 : In full_stop (lit "User@Example.com")) by by_includes.
  split; [split; [exact H1|]
         |split; [split; [exact H2|split; [exact H3|]]
                 |split; [exact H4|split; [exact H5|]]]].
  - exact (proj1 (proj2 (validateWithConditionalHandling_cases
                           asciiToLowerCase (lit "bademail"))) H1).
  - exact (proj1 (proj2 (proj2 (validateWithConditionalHandling_cases
                                  asciiToLowerCase (lit "a@nodomain"))))
             H2 H3).
  - exact (proj2 (proj2 (proj2 (validateWithConditionalHandling_cases
                                  asciiToLowerCase (lit "User@Example.com"))))
             H4 H5).
Defined.

Lemma validateAndFormatError_cases_witness :
  (~ In at_sign (lit "invalid") /\
   value_of (validateAndFormatError asciiToLowerCase (Date.mk 1700000000000)
               (lit "invalid"))
   = err (ApiError.mk (lit "VALIDATION_ERROR") (Date.mk 1700000000000))) /\
  (In at_sign (lit "A@nodomain") /\ ~ In full_stop (lit "A@nodomain") /\
   value_of (validateAndFormatError asciiToLowerCase (Date.mk 1700000000000)
               (lit "A@nodomain"))
   = ok (lit "a@nodomain") /\
   isErr (validateEmail_NeverThrow asciiToLowerCase (lit "A@nodomain")) = true).
Proof.
  assert (H1 : ~ In at_sign (lit "invalid")) by by_includes.
  assert (H2 : In at_sign (lit "A@nodomain")) by by_includes.
  assert (H3 : ~ In full_stop (lit "A@nodomain")) by by_includes.
  split; [split; [exact H1|]|split; [exact H2|split; [exact H3|split]]].
  - exact (proj1 (proj2 (validateAndFormatError_cases asciiToLowerCase
                           (Date.mk 1700000000000) (lit "invalid"))) H1).
  - exact (proj1 (validateAndFormatError_cases asciiToLowerCase
                    (Date.mk 1700000000000) (lit "A@nodomain")) H2).
  - exact (proj2 (proj2 (proj2 (proj2 (validateAndFormatError_cases
                                         asciiToLowerCase
                                         (Date.mk 1700000000000)
                                         (lit "A@nodomain")))) H2 H3)).
Defined.
